(** * Session, behavior and ephys ingestion of [churchland_pipeline_python.acquisition]

    A shallow embedding of [src/churchland_pipeline_python/acquisition.py]:
    the regular expressions the module hands to [re.search], the rows it
    builds as Python dicts, and the three ingestion routines
    [Session.populate], [BehaviorRecording.make] and [EphysRecording.make],
    written in a small state-and-exception monad over a catalog of tables,
    the console output and the set of open vendor file handles.

    Characters.  A Python [str] is the [string] of its characters, one
    [ascii] for each: the [ascii] of code [n] stands for the character of
    code point [n], so that the strings of the model are the [str] values
    whose characters are below U+0100.  Of these characters [\d] matches the
    ten digits [0] to [9] and no other, and [str.lower()] changes the
    letters [A] to [Z] and U+00C0 to U+00DE.  A [str] with a character
    from U+0100 on (a digit of another script, say) has no counterpart
    here.  The statements on which names are selected and on the raw path
    are given for ASCII names, on which nothing depends on how the bytes
    of a file name or of a file were decoded into characters. *)

From stdpp Require Import base option list sorting strings pretty gmap.
From Stdlib Require Import Ascii.
From Stdlib Require QArith_base.

Abbreviation Q := QArith_base.Q.

(* ===================================================================== *)
(** ** Regular expressions, as used through [re.search]                   *)
(* ===================================================================== *)

Module Re.

(** A single-character class. *)
Inductive cclass : Type :=
| CChar (a : Ascii.ascii)          (* a literal character, e.g. [-] or [\.] *)
| CDigit                           (* [\d] *)
| CRange (lo hi : Ascii.ascii)     (* [[lo-hi]] *)
| CDot.                            (* [.]: anything but a newline *)

(** The fragment of Python's pattern language that the module uses.  The
    only starred sub-pattern in the source is [.*], a starred class. *)
Inductive regex : Type :=
| REps
| RClass (c : cclass)
| RStar (c : cclass)
| RSeq (r1 r2 : regex)
| RAlt (r1 r2 : regex)
| RBol                             (* [^] *)
| REol.                            (* [$] *)

Definition newline : Ascii.ascii := Ascii.ascii_of_nat 10.

(** [\d] on a character below U+0100: the decimal digits among these are
    [0] to [9] (superscripts and fractions are no decimal digits). *)
Definition is_digit (a : Ascii.ascii) : bool :=
  (48 <=? Ascii.nat_of_ascii a)%nat && (Ascii.nat_of_ascii a <=? 57)%nat.

Definition in_range (lo hi a : Ascii.ascii) : bool :=
  (Ascii.nat_of_ascii lo <=? Ascii.nat_of_ascii a)%nat
  && (Ascii.nat_of_ascii a <=? Ascii.nat_of_ascii hi)%nat.

Definition class_mem (c : cclass) (a : Ascii.ascii) : bool :=
  match c with
  | CChar b => Ascii.eqb a b
  | CDigit => is_digit a
  | CRange lo hi => in_range lo hi a
  | CDot => negb (Ascii.eqb a newline)
  end.

(** [$] succeeds at the end of the subject and just before a newline that
    is the subject's last character. *)
Definition at_eol (s : string) : bool :=
  match s with
  | EmptyString => true
  | String a EmptyString => Ascii.eqb a newline
  | _ => false
  end.

(** [c*] followed by the continuation [k]: every split of the subject in
    a run of [c] characters and a rest is tried.  [bol] says whether the
    current position is the start of the subject. *)
Fixpoint star (c : cclass) (bol : bool) (s : string)
    (k : bool → string → bool) : bool :=
  k bol s ||
  match s with
  | EmptyString => false
  | String a s' => class_mem c a && star c false s' k
  end.

(** Backtracking matcher in continuation-passing style: [rmatch r bol s k]
    holds when [r] matches a prefix of [s] and [k] accepts what is left. *)
Fixpoint rmatch (r : regex) (bol : bool) (s : string)
    (k : bool → string → bool) : bool :=
  match r with
  | REps => k bol s
  | RClass c =>
      match s with
      | EmptyString => false
      | String a s' => class_mem c a && k false s'
      end
  | RStar c => star c bol s k
  | RSeq r1 r2 => rmatch r1 bol s (λ b s', rmatch r2 b s' k)
  | RAlt r1 r2 => rmatch r1 bol s k || rmatch r2 bol s k
  | RBol => bol && k bol s
  | REol => at_eol s && k bol s
  end.

Definition accept : bool → string → bool := λ _ _, true.

(** Try a match at the current position, then at every later one
    (including the position after the last character). *)
Fixpoint search_from (r : regex) (bol : bool) (s : string) : bool :=
  rmatch r bol s accept ||
  match s with
  | EmptyString => false
  | String _ s' => search_from r false s'
  end.

(** [re.search(r, s) is not None] *)
Definition search (r : regex) (s : string) : bool := search_from r true s.

(** Sequence of the regexes of a list. *)
Definition seq (rs : list regex) : regex := foldr RSeq REps rs.

(** A literal word. *)
Fixpoint lit (s : string) : regex :=
  match s with
  | EmptyString => REps
  | String a s' => RSeq (RClass (CChar a)) (lit s')
  end.

Definition digit : regex := RClass CDigit.
Definition dotstar : regex := RStar CDot.

(** [r'\d{4}-\d{2}-\d{2}'] (Session.populate) *)
Definition date_re : regex :=
  seq [digit; digit; digit; digit; lit "-"; digit; digit; lit "-"; digit; digit].

(** ['.*notes\.txt'] (Session.populate) *)
Definition notes_re : regex := RSeq dotstar (lit "notes.txt").

(** ['.*\.summary'] (BehaviorRecording.make) *)
Definition summary_re : regex := RSeq dotstar (lit ".summary").

(** [r'.*(emg|neu|neu_emg)_00\d\.ns\d'] (EphysRecording.make) *)
Definition nsx_re : regex :=
  seq [dotstar; RAlt (lit "emg") (RAlt (lit "neu") (lit "neu_emg"));
       lit "_00"; digit; lit ".ns"; digit].

(** ['^\d'] (EphysRecording.make, brain channels) *)
Definition brain_re : regex := RSeq RBol digit.

(** ['ainp[1-8]$'] (EphysRecording.make, EMG channels) *)
Definition emg_re : regex :=
  seq [lit "ainp"; RClass (CRange "1"%char "8"%char); REol].

End Re.

(* ===================================================================== *)
(** ** Python values, dicts and exceptions                                *)
(* ===================================================================== *)

(** The values that end up in a row: [str], [int] and [float].  A float
    is carried as a rational; the module only copies floats and applies
    [int(...)] to one of them. *)
Inductive value : Type :=
| VStr (s : string)
| VInt (z : Z)
| VFloat (q : Q).

Global Instance Q_eq_dec : EqDecision Q.
Proof. solve_decision. Defined.

Global Instance value_eq_dec : EqDecision value.
Proof. solve_decision. Defined.

(** A Python dict with string keys: the rows and keys of the module. *)
Abbreviation row := (gmap string value).

Inductive table : Type :=
| TMonkey                (* lab.Monkey *)
| TRig                   (* lab.Rig *)
| THardware              (* equipment.Hardware *)
| TTask
| TSession
| TSessionHardware       (* Session.Hardware *)
| TSessionUser           (* Session.User *)
| TSessionNotes          (* Session.Notes *)
| TBehaviorRecording
| TEphysRecording
| TEphysChannel.         (* EphysRecording.Channel *)

Global Instance table_eq_dec : EqDecision table.
Proof. solve_decision. Defined.

Inductive exn : Type :=
| StopIteration
| AssertionError
| KeyError (k : string)
| IndexError
| NameError (v : string)
| TypeError
| OSError (path : string)
| UnicodeDecodeError (path : string) (* [f.read()] on bytes that are no text *)
| VendorError (path : string)        (* raised by the brpylib reader *)
| DataJointError                     (* fetch1 on other than one row *)
| InsertError (t : table) (r : row). (* insert1 refused by the catalog *)

Inductive result (A : Type) : Type :=
| Ok (a : A)
| Raise (e : exn).
Arguments Ok {A} a.
Arguments Raise {A} e.

(** What the routines act on: the rows of the catalog in insertion order,
    the lines printed so far, and the vendor files currently open. *)
Record state : Type := State {
  catalog : list (table * row);
  stdout : list string;
  handles : list string
}.

(** A computation returns a value or raises, and in both cases leaves a
    state behind: what was inserted before an exception stays inserted. *)
Definition M (A : Type) : Type := state → result A * state.

Global Instance M_ret : MRet M := λ A a st, (Ok a, st).
Global Instance M_bind : MBind M := λ A B f m st,
  match m st with
  | (Ok a, st') => f a st'
  | (Raise e, st') => (Raise e, st')
  end.

(** A computation that does not touch the state. *)
Definition lift {A} (r : result A) : M A := λ st, (r, st).

Definition raise {A} (e : exn) : M A := lift (Raise e).

(** [try: body / except StopIteration: handler / else: cont] *)
Definition try_stop {A B} (body : M A) (handler : M B) (cont : A → M B) : M B :=
  λ st,
    match body st with
    | (Ok a, st') => cont a st'
    | (Raise StopIteration, st') => handler st'
    | (Raise e, st') => (Raise e, st')
    end.

Definition opt_result {A} (e : exn) (o : option A) : result A :=
  match o with Some a => Ok a | None => Raise e end.

Definition from_opt {A} (e : exn) (o : option A) : M A := lift (opt_result e o).

Definition assert (b : bool) : M unit :=
  if b then mret () else raise AssertionError.

Definition print (line : string) : M unit := λ st,
  (Ok (), State (catalog st) (stdout st ++ [line]) (handles st)).

(** [for i, x in enumerate(xs): acc = body(i, x, acc)], from index [i]. *)
Fixpoint for_enum {A B} (body : nat → A → B → M B) (i : nat) (xs : list A)
    (acc : B) : M B :=
  match xs with
  | [] => mret acc
  | x :: xs' => acc' ← body i x acc; for_enum body (S i) xs' acc'
  end.

(** [for x in xs: acc = body(x, acc)] *)
Fixpoint for_each {A B} (body : A → B → M B) (xs : list A) (acc : B) : M B :=
  match xs with
  | [] => mret acc
  | x :: xs' => acc' ← body x acc; for_each body xs' acc'
  end.

(** [d[k]] *)
Definition getitem (d : row) (k : string) : M value :=
  from_opt (KeyError k) (d !! k).

(** A value used where the code needs a [str] ([.lower()], [+], [join]). *)
Definition as_str (v : value) : M string :=
  match v with VStr s => mret s | _ => raise TypeError end.

(** The dict built from the keywords of [a] and [b], Python's [dict] called
    on both unpacked: a keyword given twice is a TypeError. *)
Definition dict_kw (a b : row) : M row :=
  if decide (a ##ₘ b) then mret (a ∪ b) else raise TypeError.

(** [next(filter(p, xs))] and [next(x for x in xs if p(x))]. *)
Definition first_match (p : string → bool) (xs : list string) : result string :=
  opt_result StopIteration (head (filter (λ x, p x = true) xs)).

Definition next_filter (p : string → bool) (xs : list string) : M string :=
  lift (first_match p xs).

(** [next(filter(lambda x: x == var, xs))] where the local [var] may be
    unbound: the lambda reads it only when the first element is tested. *)
Definition first_equal (name : string) (var : option string)
    (xs : list string) : result string :=
  match xs, var with
  | [], _ => Raise StopIteration
  | _ :: _, None => Raise (NameError name)
  | _ :: _, Some v => first_match (λ x, bool_decide (x = v)) xs
  end.

Definition next_filter_eq (name : string) (var : option string)
    (xs : list string) : M string :=
  lift (first_equal name var xs).

(** [int(q)]: truncation toward zero. *)
Definition py_int (q : Q) : Z := Z.quot (QArith_base.Qnum q) (Zpos (QArith_base.Qden q)).

(** [c.lower()] for a character below U+0100: the capital letters are [A]
    to [Z] (65 to 90) and U+00C0 to U+00DE (192 to 222) without the
    multiplication sign U+00D7 (215), and each has its small letter 32
    places further on. *)
Definition lower_char (a : ascii) : ascii :=
  let n := nat_of_ascii a in
  if ((65 <=? n)%nat && (n <=? 90)%nat)
     || ((192 <=? n)%nat && (n <=? 222)%nat && negb (n =? 215)%nat)
  then ascii_of_nat (n + 32) else a.

(** [s.lower()] *)
Fixpoint lower (s : string) : string :=
  match s with
  | EmptyString => EmptyString
  | String a s' => String (lower_char a) (lower s')
  end.

(** [sep.join(parts)] *)
Fixpoint sep_join (sep : string) (parts : list string) : string :=
  match parts with
  | [] => ""
  | [p] => p
  | p :: ps => p +:+ sep +:+ sep_join sep ps
  end.

(** [str(v)] for what a [date] or [varchar] attribute holds.  The text
    Python prints for a float is outside this model: no such column holds
    one, and the case is made a TypeError. *)
Definition py_str (v : value) : M string :=
  match v with
  | VStr s => mret s
  | VInt z => mret (pretty z)
  | VFloat _ => raise TypeError
  end.

(* ===================================================================== *)
(** ** The catalog: tables, query expressions, insertion                  *)
(* ===================================================================== *)

(** Attributes of each table, primary key first, as the [definition]
    strings declare them.  Of [lab.Monkey], [lab.Rig] and
    [equipment.Hardware], declared outside this module, only the
    attributes that this module reads are listed. *)
Definition primary_key (t : table) : list string :=
  match t with
  | TMonkey => ["monkey"]
  | TRig => ["rig"]
  | THardware => ["hardware"]
  | TTask => ["task"; "task_version"]
  | TSession => ["session_date"; "monkey"]
  | TSessionHardware => ["session_date"; "monkey"; "hardware"]
  | TSessionUser => ["session_date"; "monkey"; "user"]
  | TSessionNotes => ["session_date"; "monkey"; "session_notes_id"]
  | TBehaviorRecording => ["session_date"; "monkey"]
  | TEphysRecording => ["session_date"; "monkey"; "ephys_file_id"]
  | TEphysChannel => ["session_date"; "monkey"; "ephys_file_id"; "channel_index"]
  end.

Definition secondary (t : table) : list string :=
  match t with
  | TMonkey | TRig | TSessionHardware | TSessionUser => []
  | THardware => ["hardware_category"]
  | TTask => ["task_controller_hardware"; "task_controller_software";
              "task_controller_software_version"; "graphics";
              "graphics_version"; "task_description"]
  | TSession => ["rig"; "task"; "task_version"; "session_problem";
                 "session_problem_description"]
  | TSessionNotes => ["session_notes"]
  | TBehaviorRecording => ["behavior_summary_file_path"; "behavior_sample_rate"]
  | TEphysRecording => ["ephys_file_path"; "ephys_sample_rate"; "ephys_duration"]
  | TEphysChannel => ["channel_id"; "channel_label"]
  end.

Definition heading (t : table) : list string := primary_key t ++ secondary t.

(** A query expression: the class it is an instance of (none for a join),
    its attributes, its primary key and the rows it denotes. *)
Record query : Type := Query {
  rel_class : option table;
  rel_attrs : list string;
  rel_pk : list string;
  rel_tuples : list row
}.

Definition rows_of (t : table) (cat : list (table * row)) : list row :=
  (filter (λ p, p.1 = t) cat).*2.

Definition table_rel (t : table) (cat : list (table * row)) : query :=
  Query (Some t) (heading t) (primary_key t) (rows_of t cat).

(** A row satisfies a dict restriction when it has the dict's value at
    every attribute of the dict that the heading knows. *)
Definition satisfies (attrs : list string) (cond r : row) : Prop :=
  map_Forall (λ k v, k ∈ attrs → r !! k = Some v) cond.

Global Instance satisfies_dec attrs cond r : Decision (satisfies attrs cond r).
Proof. unfold satisfies. apply _. Defined.

(** [R & cond] for a dict [cond] *)
Definition restrict (R : query) (cond : row) : query :=
  Query (rel_class R) (rel_attrs R) (rel_pk R)
           (filter (satisfies (rel_attrs R) cond) (rel_tuples R)).

(** Two rows agree on the attributes their headings share. *)
Definition agree (attrs1 attrs2 : list string) (r1 r2 : row) : Prop :=
  Forall (λ k, k ∈ attrs2 → r1 !! k = r2 !! k) attrs1.

Global Instance agree_dec a1 a2 r1 r2 : Decision (agree a1 a2 r1 r2).
Proof. unfold agree. apply _. Defined.

(** [R1 & R2] for a query expression [R2] (semijoin) *)
Definition semijoin (R1 R2 : query) : query :=
  Query (rel_class R1) (rel_attrs R1) (rel_pk R1)
    (filter (λ r1, Exists (agree (rel_attrs R1) (rel_attrs R2) r1) (rel_tuples R2))
            (rel_tuples R1)).

(** [R1 * R2] (natural join) *)
Definition rel_join (R1 R2 : query) : query :=
  let fresh := filter (λ k, k ∉ rel_attrs R1) in
  Query None (rel_attrs R1 ++ fresh (rel_attrs R2))
    (rel_pk R1 ++ fresh (rel_pk R2))
    (r1 ← rel_tuples R1;
     r2 ← rel_tuples R2;
     if decide (agree (rel_attrs R1) (rel_attrs R2) r1 r2) then [r1 ∪ r2] else []).

(** [len(R)] and the truth value of [R] *)
Definition rel_len (R : query) : nat := length (rel_tuples R).
Definition rel_bool (R : query) : bool := bool_decide (rel_tuples R ≠ []).

(** [R.fetch1()] *)
Definition fetch1 (R : query) : M row :=
  match rel_tuples R with
  | [r] => mret r
  | _ => raise DataJointError
  end.

(** [R.fetch1(attr)] *)
Definition fetch1_attr (R : query) (attr : string) : M value :=
  r ← fetch1 R; from_opt DataJointError (r !! attr).

(** [R.fetch1('KEY')] *)
Definition fetch1_key (R : query) : M row :=
  r ← fetch1 R; mret (filter (λ kv, kv.1 ∈ rel_pk R) r).

(** The table [t] as it stands. *)
Definition get_table (t : table) : M query :=
  λ st, (Ok (table_rel t (catalog st)), st).

(** One electrode entry of [NsxFile.extended_headers]. *)
Record ElectrodeHeader : Type := Electrode {
  ElectrodeID : Z;
  ElectrodeLabel : string
}.

(** What [NsxFile.getdata] returns, as far as the module reads it. *)
Record NsxData : Type := Data {
  samp_per_s : Q;
  data_time_s : Q
}.

(** An opened vendor file. *)
Record NsxContents : Type := Nsx {
  extended_headers : list ElectrodeHeader;
  getdata : Z → option NsxData
}.

(** The collaborators of the module, none of which it defines: the
    storage-path helpers of [reference.EngramPath], the file system, the
    brpylib reader, and the catalog's verdict on a row given to
    [insert1]. *)
Record env : Type := Env {
  local_path : string;                         (* getlocalpath() *)
  ensureglobal : string → string;
  listdir : string → option (list string);     (* os.listdir *)
  read_text : string → option string;          (* open(p, 'r') and f.read() *)
  read_error : string → exn;                   (* what these raise for p *)
  nsx_read : string → option NsxContents;      (* NsxFile(p) *)
  insert_ok : table → row → list (table * row) → bool
}.

Section WithEnv.
Context (E : env).

(** [T.insert1(r)]: the row is appended, or the catalog refuses it. *)
Definition insert1 (t : table) (r : row) : M unit := λ st,
  if insert_ok E t r (catalog st)
  then (Ok (), State (catalog st ++ [(t, r)]) (stdout st) (handles st))
  else (Raise (InsertError t r), st).

Definition os_listdir (path : string) : M (list string) :=
  from_opt (OSError path) (listdir E path).

(** [NsxFile(pth)]: the handle is open from here on. *)
Definition nsx_open (pth : string) : M NsxContents := λ st,
  match nsx_read E pth with
  | Some f => (Ok f, State (catalog st) (stdout st) (pth :: handles st))
  | None => (Raise (VendorError pth), st)
  end.

Fixpoint remove_first (x : string) (l : list string) : list string :=
  match l with
  | [] => []
  | y :: l' => if decide (x = y) then l' else y :: remove_first x l'
  end.

(** [nsx_file.close()] *)
Definition nsx_close (pth : string) : M unit := λ st,
  (Ok (), State (catalog st) (stdout st) (remove_first pth (handles st))).

(** [with open(path, 'r') as f: body(f.read())]: the handle is released
    whether or not the body raises.  A file that cannot be opened raises
    the OSError of [open], one whose bytes are no text the
    UnicodeDecodeError of [f.read()]; which of them is the environment's
    to say, and in both cases no handle is left open and the body does
    not run. *)
Definition with_open {A} (path : string) (body : string → M A) : M A := λ st,
  match read_text E path with
  | None => (Raise (read_error E path), st)
  | Some text =>
      let '(res, st') :=
        body text (State (catalog st) (stdout st) (path :: handles st)) in
      (res, State (catalog st') (stdout st') (remove_first path (handles st')))
  end.

End WithEnv.

(* ===================================================================== *)
(** ** Task                                                               *)
(* ===================================================================== *)

Module Task.

(** Lines 28-32: the [contents] of the lookup table, one list per task in
    the order of the heading. *)
Definition contents : list (list string) :=
  [ ["pacman";     "1.0"; "Speedgoat"; "Simulink"; ""; "Psychtoolbox"; "3.0";
     "1-dimensional force tracking"];
    ["two target"; "1.0"; "Speedgoat"; "Simulink"; ""; "Unity 3D";     "";    ""];
    ["reaching";   "1.0"; "Speedgoat"; "Simulink"; ""; "Psychtoolbox"; "3.0"; ""] ].

(** A list of [contents] as the row the table holds for it. *)
Definition to_row (values : list string) : row :=
  list_to_map (zip (heading TTask) (VStr <$> values)).

(** The rows of the lookup table. *)
Definition rows : list row := to_row <$> contents.

End Task.

(* ===================================================================== *)
(** ** Session                                                            *)
(* ===================================================================== *)

Module Session.
Section WithEnv.
Context (E : env).

(** [Session.getrawpath(monkey, rig, task)] *)
Definition getrawpath (monkey rig task : value) : M string :=
  rig_s ← as_str rig;
  task_s ← as_str task;
  monkey_s ← as_str monkey;
  let raw_path_parts := [rig_s; lower task_s +:+ "-task"; lower monkey_s; "raw"; ""] in
  mret (local_path E +:+ sep_join "/" raw_path_parts).

(** [sorted(list(os.listdir(raw_path)))] *)
Definition sorted (l : list string) : list string := merge_sort String.le l.

(** Lines 118-123: the directory entries kept as session dates, from the
    user's list when it is not empty, from the date pattern otherwise. *)
Definition select_dates (dates raw_dir : list string) : list string :=
  match dates with
  | _ :: _ => filter (λ d, d ∈ dates) raw_dir
  | [] => filter (λ d, Re.search Re.date_re d = true) raw_dir
  end.

(** [self & {'session_date': date}] as a truth value *)
Definition in_table (sessions : query) (date : string) : bool :=
  rel_bool (restrict sessions {[ "session_date" := VStr date ]}).

(** Line 126: the dates without a row in the table. *)
Definition not_in_table (sessions : query) (session_dates : list string)
    : list string :=
  filter (λ date, in_table sessions date = false) session_dates.

(** The locals bound inside the loop body only under a condition; they are
    unbound until a first assignment and stay bound afterwards. *)
Record locals : Type := Locals {
  behavior_dir : option string;
  ephys_dir : option string
}.

Definition notes_row (session_key : row) (text : string) : M row :=
  dict_kw session_key
    {[ "session_notes_id" := VInt 0; "session_notes" := VStr text ]}.

(** Lines 161-168: the notes of the session. *)
Definition insert_notes (session_path date : string) (session_files : list string)
    (session_key : row) : M unit :=
  try_stop (next_filter (Re.search Re.notes_re) session_files)
    (print ("Missing notes for session " +:+ date))
    (λ notes_files,
       with_open E (session_path +:+ notes_files) (λ text,
         r ← notes_row session_key text;
         insert1 E TSessionNotes r)).

(** Lines 155-171: the rows of a session that has both directories. *)
Definition insert_session (session_path date : string) (session_files : list string)
    (monkey_key rig_key task_key nsp_key : row) : M unit :=
  session_key ← dict_kw {[ "session_date" := VStr date ]} monkey_key;
  r ← dict_kw session_key rig_key;
  r ← dict_kw r task_key;
  insert1 E TSession r;;
  insert_notes session_path date session_files session_key;;
  h ← dict_kw session_key nsp_key;
  insert1 E TSessionHardware h.

(** Lines 130-171: the body of the loop over the session dates.  The
    lookup [nsp_key['hardware']] stands before its [try] here: the
    KeyError it may raise is not caught by that [try]. *)
Definition ingest_date (task : query)
    (monkey_key rig_key task_key nsp_key : row) (raw_path : string)
    (date : string) (lv : locals) : M locals :=
  let session_path := (raw_path +:+ date) +:+ "/" in
  session_files ← os_listdir E session_path;
  let lv :=
    if rel_bool (restrict task {[ "task_controller_hardware" := VStr "Speedgoat" ]})
    then Locals (Some "speedgoat") (ephys_dir lv) else lv in
  try_stop (next_filter_eq "behavior_dir" (behavior_dir lv) session_files)
    (print ("Missing behavior files for session " +:+ date);; mret lv)
    (λ _,
       hardware ← getitem nsp_key "hardware";
       let lv :=
         if decide (hardware = VStr "Cerebus")
         then Locals (behavior_dir lv) (Some "blackrock") else lv in
       try_stop (next_filter_eq "ephys_dir" (ephys_dir lv) session_files)
         (print ("Missing ephys files for session " +:+ date);; mret lv)
         (λ _,
            insert_session session_path date session_files
              monkey_key rig_key task_key nsp_key;;
            mret lv)).

(** The default of the parameter [neural_signal_processor]. *)
Definition default_nsp : M query :=
  hardware ← get_table THardware;
  mret (restrict hardware {[ "hardware" := VStr "Cerebus" ]}).

(** What lines 98-115 hand to the rest of the routine. *)
Record inputs : Type := Inputs {
  monkey_key : row;
  rig_key : row;
  task_key : row;
  nsp_key : row;
  raw_path : string
}.

(** Lines 98-115: check the inputs, fetch their keys, resolve the path. *)
Definition check_inputs (monkey rig task : query)
    (neural_signal_processor : query) : M inputs :=
  for_each (λ tbl _, assert (bool_decide (rel_len tbl = 1)))
    [monkey; rig; task] ();;
  assert (bool_decide (rel_class monkey = Some TMonkey));;
  assert (bool_decide (rel_class rig = Some TRig));;
  assert (bool_decide (rel_class task = Some TTask));;
  category ← fetch1_attr neural_signal_processor "hardware_category";
  assert (bool_decide (category = VStr "neural signal processor"));;
  (* fetch input keys *)
  monkey_key ← fetch1_key monkey;
  rig_key ← fetch1_key rig;
  task_key ← fetch1_key task;
  nsp_key ← fetch1_key neural_signal_processor;
  (* find all directories in raw path *)
  m ← getitem monkey_key "monkey";
  r ← getitem rig_key "rig";
  t ← getitem task_key "task";
  raw_path ← getrawpath m r t;
  mret (Inputs monkey_key rig_key task_key nsp_key raw_path).

(** Lines 116-126 on a listing and a table: the session dates to ingest. *)
Definition session_dates (sessions : query) (dates listing : list string)
    : list string :=
  not_in_table sessions (select_dates dates (sorted listing)).

(** Lines 116-126 *)
Definition scan (dates : list string) (raw_path : string) : M (list string) :=
  listing ← os_listdir E raw_path;
  sessions ← get_table TSession;
  mret (session_dates sessions dates listing).

(** [Session.populate(monkey, rig, task, dates, neural_signal_processor)];
    an argument left out is [None] and takes its default. *)
Definition populate (monkey rig task : query) (dates : option (list string))
    (neural_signal_processor : option query) : M unit :=
  let dates := default [] dates in
  neural_signal_processor ←
    from_option mret default_nsp neural_signal_processor;
  inp ← check_inputs monkey rig task neural_signal_processor;
  session_dates ← scan dates (raw_path inp);
  for_each
    (ingest_date task (monkey_key inp) (rig_key inp) (task_key inp) (nsp_key inp)
       (raw_path inp))
    session_dates (Locals None None);;
  mret ().

(** [Session.Notes.printnotes(session, notes_id)] (lines 73-78); a
    [notes_id] left out is [None] and takes its default 0. *)
Definition printnotes (session : value) (notes_id : option value) : M unit :=
  let notes_id := default (VInt 0) notes_id in
  notes ← get_table TSessionNotes;
  text ← fetch1_attr
           (restrict notes {[ "session_date" := session;
                              "session_notes_id" := notes_id ]})
           "session_notes";
  text ← py_str text;
  print text.

End WithEnv.
End Session.

(* ===================================================================== *)
(** ** BehaviorRecording                                                  *)
(* ===================================================================== *)

Module BehaviorRecording.
Section WithEnv.
Context (E : env).

(** Lines 191-197: the raw path of the session and its task controller. *)
Definition resolve (key : row) : M (string * value) :=
  sessions ← get_table TSession;
  session_key ← fetch1 (restrict sessions key);
  (* path to raw data *)
  m ← getitem session_key "monkey";
  r ← getitem session_key "rig";
  t ← getitem session_key "task";
  root ← Session.getrawpath E m r t;
  d ← getitem key "session_date";
  d ← py_str d;
  let raw_path := root +:+ d in
  (* identify task controller *)
  tasks ← get_table TTask;
  task_controller_hardware ←
    fetch1_attr (restrict (semijoin tasks sessions) session_key)
      "task_controller_hardware";
  mret (raw_path, task_controller_hardware).

(** The row of line 215 when [summary_file] was found. *)
Definition summary_row (raw_path summary_file : string) (key : row) : row :=
  <[ "behavior_sample_rate" := VInt 1000 ]>
    (<[ "behavior_summary_file_path" :=
          VStr (ensureglobal E ((raw_path +:+ "/speedgoat/") +:+ summary_file)) ]> key).

(** Lines 199-215 *)
Definition record (raw_path : string) (task_controller_hardware : value)
    (key : row) : M unit :=
  key ←
    (if decide (task_controller_hardware = VStr "Speedgoat") then
       let speedgoat_path := raw_path +:+ "/speedgoat/" in
       speedgoat_files ← os_listdir E speedgoat_path;
       summary_file ← next_filter (Re.search Re.summary_re) speedgoat_files;
       mret (<[ "behavior_summary_file_path" :=
                  VStr (ensureglobal E (speedgoat_path +:+ summary_file)) ]> key)
     else mret key);
  let key := <[ "behavior_sample_rate" := VInt 1000 ]> key in
  insert1 E TBehaviorRecording key.

(** [BehaviorRecording.make(key)] *)
Definition make (key : row) : M unit :=
  '(raw_path, task_controller_hardware) ← resolve key;
  record raw_path task_controller_hardware key.

End WithEnv.
End BehaviorRecording.

(* ===================================================================== *)
(** ** EphysRecording                                                     *)
(* ===================================================================== *)

Module EphysRecording.
Section WithEnv.
Context (E : env).

(** Lines 289-299: the label a channel gets, if any. *)
Definition classify (label : string) : option string :=
  if Re.search Re.brain_re label then Some "brain"
  else if Re.search Re.emg_re label then Some "emg"
  else if decide (label = "ainp15") then Some "stim"
  else if decide (label = "ainp16") then Some "sync"
  else None.

(** Lines 286-299: the row of channel [j], built on a copy of
    [primary_key]. *)
Definition channel_row (primary_key : row) (j : nat) (elec : ElectrodeHeader)
    : row :=
  let key := primary_key in
  let key := <[ "channel_index" := VInt (Z.of_nat j) ]> key in
  let key := <[ "channel_id" := VInt (ElectrodeID elec) ]> key in
  match classify (ElectrodeLabel elec) with
  | Some l => <[ "channel_label" := VStr l ]> key
  | None => key
  end.

(** Lines 285-301: one pass of the inner loop; the result is what the
    name [key] is bound to afterwards. *)
Definition insert_channel (primary_key : row) (j : nat) (elec : ElectrodeHeader)
    (key : row) : M row :=
  let key := channel_row primary_key j elec in
  insert1 E TEphysChannel key;;
  mret key.

(** Lines 263-304: one pass of the loop over the files; [key] comes in as
    the previous pass left it and goes out as this pass leaves it. *)
Definition ingest_file (i : nat) (pth : string) (key : row) : M row :=
  let key := <[ "ephys_file_id" := VInt (Z.of_nat i) ]> key in
  let primary_key := key in
  (* read NSx file *)
  nsx_file ← nsx_open E pth;
  (* read data from first channel *)
  first ← from_opt IndexError (head (extended_headers nsx_file));
  nsx_data ← from_opt (VendorError pth) (getdata nsx_file (ElectrodeID first));
  (* pull sample rate and recording duration *)
  let key := <[ "ephys_sample_rate" := VInt (py_int (samp_per_s nsx_data)) ]> key in
  let key := <[ "ephys_duration" := VFloat (data_time_s nsx_data) ]> key in
  let key := <[ "ephys_file_path" := VStr (ensureglobal E pth) ]> key in
  (* insert self *)
  insert1 E TEphysRecording key;;
  (* insert channel header information *)
  key ← for_enum (insert_channel primary_key) 0 (extended_headers nsx_file) key;
  (* close file *)
  nsx_close pth;;
  mret key.

(** Line 260 *)
Definition nsx_files (blackrock_files : list string) : list string :=
  filter (λ f, Re.search Re.nsx_re f = true) blackrock_files.

(** Lines 244-251: the raw path of the session and its signal processor. *)
Definition resolve (key : row) : M (string * value) :=
  sessions ← get_table TSession;
  session_key ← fetch1 (restrict sessions key);
  (* path to raw data *)
  m ← getitem session_key "monkey";
  r ← getitem session_key "rig";
  t ← getitem session_key "task";
  root ← Session.getrawpath E m r t;
  d ← getitem session_key "session_date";
  d ← py_str d;
  let raw_path := root +:+ d in
  (* fetch neural signal processor *)
  session_hw ← get_table TSessionHardware;
  hardware ← get_table THardware;
  let session_hardware := rel_join (restrict session_hw session_key) hardware in
  neural_signal_processor ←
    fetch1_attr
      (restrict session_hardware
         {[ "hardware_category" := VStr "neural signal processor" ]})
      "hardware";
  mret (raw_path, neural_signal_processor).

(** Lines 253-304 *)
Definition ingest (raw_path : string) (neural_signal_processor : value)
    (key : row) : M unit :=
  if decide (neural_signal_processor = VStr "Cerebus") then
    let blackrock_path := raw_path +:+ "/blackrock/" in
    blackrock_files ← os_listdir E blackrock_path;
    let nsx_path := (λ f, blackrock_path +:+ f) <$> nsx_files blackrock_files in
    for_enum ingest_file 0 nsx_path key;;
    mret ()
  else mret ().

(** [EphysRecording.make(key)] *)
Definition make (key : row) : M unit :=
  '(raw_path, neural_signal_processor) ← resolve key;
  ingest raw_path neural_signal_processor key.

End WithEnv.
End EphysRecording.

(* ===================================================================== *)
(** ** Shapes of names, stated without regular expressions                *)
(* ===================================================================== *)

Module Shape.

(** Four digits, a hyphen, two digits, a hyphen, two digits. *)
Definition date_shape (d : string) : bool :=
  match String.list_ascii_of_string d with
  | [y1; y2; y3; y4; h1; m1; m2; h2; d1; d2] =>
      forallb Re.is_digit [y1; y2; y3; y4; m1; m2; d1; d2]
      && Ascii.eqb h1 "-" && Ascii.eqb h2 "-"
  | _ => false
  end.

(** The name has a date somewhere in it. *)
Definition contains_date (s : string) : Prop :=
  ∃ pre d post, s = pre +:+ d +:+ post ∧ date_shape d = true.

(** Every character of the name is an ASCII character. *)
Definition ascii_only (s : string) : bool :=
  forallb (λ a, (Ascii.nat_of_ascii a <? 128)%nat) (String.list_ascii_of_string s).


Definition starts_with_digit (s : string) : bool :=
  match s with
  | String a _ => Re.is_digit a
  | EmptyString => false
  end.

(** The word [ainpN] with [N] from 1 to 8. *)
Definition ainp_1_8 (w : string) : bool :=
  match String.list_ascii_of_string w with
  | [a; i; n; p; d] =>
      Ascii.eqb a "a" && Ascii.eqb i "i" && Ascii.eqb n "n" && Ascii.eqb p "p"
      && Re.in_range "1" "8" d
  | _ => false
  end.

(** The label ends in [ainpN], [N] from 1 to 8. *)
Definition ends_in_ainp (s : string) : Prop :=
  ∃ pre w, s = pre +:+ w ∧ ainp_1_8 w = true.

(** The same, or [ainpN] followed by one closing newline. *)
Definition ends_in_ainp_nl (s : string) : Prop :=
  ∃ pre w, ainp_1_8 w = true ∧
    (s = pre +:+ w ∨ s = pre +:+ w +:+ String Re.newline "").

End Shape.

(* ===================================================================== *)
(** ** Sample catalogs and a sample session tree                          *)
(* ===================================================================== *)

Module Sample.

(** A catalog that takes every row. *)
Definition accept_all : table → row → list (table * row) → bool := λ _ _ _, true.

(** Attributes declared with a default value. *)
Definition optional (t : table) : list string :=
  match t with
  | TSession => ["session_problem"; "session_problem_description"]
  | TBehaviorRecording => ["behavior_sample_rate"]
  | TEphysChannel => ["channel_id"]
  | _ => []
  end.

(** A catalog that holds rows to the declared headings: it refuses a row
    with an attribute its table lacks, a row without a value for an
    attribute declared without default, and a second row with the
    primary key of a stored one. *)
Definition strict : table → row → list (table * row) → bool := λ t r cat,
  bool_decide (set_Forall (λ k, k ∈ heading t) (dom r))
  && bool_decide (Forall (λ k, k ∈ optional t ∨ is_Some (r !! k)) (heading t))
  && bool_decide (Forall (λ r', ¬ agree (primary_key t) (primary_key t) r r')
                    (rows_of t cat)).

Definition raw : string := "/locker/Jumanji/pacman-task/cousteau/raw/".

(** Four dated sessions (two complete, one without [speedgoat/], one
    without [blackrock/]) and a directory that is no session. *)
Definition tree (p : string) : option (list string) :=
  if decide (p = raw) then
    Some ["scratch"; "2021-01-04"; "2021-01-03"; "2021-01-02"; "2021-01-01"]
  else if decide (p = raw +:+ "2021-01-01/") then
    Some ["speedgoat"; "blackrock"; "b_notes.txt"; "a_notes.txt"]
  else if decide (p = raw +:+ "2021-01-02/") then Some ["blackrock"; "notes.txt"]
  else if decide (p = raw +:+ "2021-01-03/") then Some ["speedgoat"]
  else if decide (p = raw +:+ "2021-01-04/") then Some ["blackrock"; "speedgoat"]
  else if decide (p = raw +:+ "2021-01-01/blackrock/") then
    Some ["foo_neu_001.ns5"; "foo_neu_002.ns5"; "foo.ccf"]
  else if decide (p = raw +:+ "2021-01-01/speedgoat/") then
    Some ["a.summary"; "b.summary"]
  else if decide (p = raw +:+ "2021-01-04/blackrock/") then Some ["bar_emg_001.ns3"]
  else if decide (p = raw +:+ "2021-01-04/speedgoat/") then Some ["bar.mat"]
  else None.

Definition texts (p : string) : option string :=
  if decide (p = raw +:+ "2021-01-01/b_notes.txt") then Some "first"
  else if decide (p = raw +:+ "2021-01-01/a_notes.txt") then Some "second"
  else None.

Definition half_minute : NsxData :=
  Data (QArith_base.Qmake 30000 1) (QArith_base.Qmake 30 1).

(** The vendor files: the first of day one has labelled electrodes only,
    the others have one whose label no rule knows. *)
Definition vendor (p : string) : option NsxContents :=
  if decide (p = raw +:+ "2021-01-01/blackrock/foo_neu_001.ns5") then
    Some (Nsx [Electrode 1 "137"; Electrode 129 "ainp1"] (λ _, Some half_minute))
  else if decide (p = raw +:+ "2021-01-01/blackrock/foo_neu_002.ns5") then
    Some (Nsx [Electrode 1 "weird"] (λ _, Some half_minute))
  else if decide (p = raw +:+ "2021-01-04/blackrock/bar_emg_001.ns3") then
    Some (Nsx [Electrode 129 "ainp1"; Electrode 130 "weird"; Electrode 131 "ainp3"]
              (λ _, Some half_minute))
  else None.

(** A missing file is the only failure of [open] in the samples. *)
Definition world (policy : table → row → list (table * row) → bool) : env :=
  Env "/locker/" id tree texts OSError vendor policy.

(** A raw directory with entries that have a date in their name and are
    no dates. *)
Definition archive (policy : table → row → list (table * row) → bool) : env :=
  Env "/locker/" id
    (λ p, if decide (p = raw)
          then Some ["scratch"; "backup-2021-01-01"; "2021-01-015"] else None)
    (λ _, None) OSError (λ _, None) policy.


Definition cousteau : row := {[ "monkey" := VStr "Cousteau" ]}.
Definition jumanji : row := {[ "rig" := VStr "Jumanji" ]}.
Definition pacman : row :=
  {[ "task" := VStr "pacman"; "task_version" := VStr "1.0";
     "task_controller_hardware" := VStr "Speedgoat";
     "task_controller_software" := VStr "Simulink";
     "task_controller_software_version" := VStr "";
     "graphics" := VStr "Psychtoolbox"; "graphics_version" := VStr "3.0";
     "task_description" := VStr "1-dimensional force tracking" ]}.
Definition cerebus : row :=
  {[ "hardware" := VStr "Cerebus";
     "hardware_category" := VStr "neural signal processor" ]}.

Definition monkey : query := Query (Some TMonkey) ["monkey"] ["monkey"] [cousteau].
Definition rig : query := Query (Some TRig) ["rig"] ["rig"] [jumanji].
Definition task : query :=
  Query (Some TTask) (heading TTask) (primary_key TTask) [pacman].

(** What the input checks of [Session.populate] hand on for [monkey],
    [rig], [task] and the Cerebus. *)
Definition inp : Session.inputs :=
  Session.Inputs cousteau jumanji
    {[ "task" := VStr "pacman"; "task_version" := VStr "1.0" ]}
    {[ "hardware" := VStr "Cerebus" ]} raw.

(** The catalog before any session is ingested. *)
Definition fresh : state :=
  State [(TMonkey, cousteau); (TRig, jumanji); (THardware, cerebus); (TTask, pacman)]
        [] [].

(** The keys of the two complete sessions. *)
Definition day1 : row :=
  {[ "session_date" := VStr "2021-01-01"; "monkey" := VStr "Cousteau" ]}.
Definition day4 : row :=
  {[ "session_date" := VStr "2021-01-04"; "monkey" := VStr "Cousteau" ]}.

(** A session of another monkey on the first day, and the fresh catalog
    with that session in it. *)
Definition darwin_day1 : row :=
  {[ "session_date" := VStr "2021-01-01"; "monkey" := VStr "Darwin";
     "rig" := VStr "Jumanji"; "task" := VStr "pacman";
     "task_version" := VStr "1.0" ]}.

Definition shared : state :=
  State (catalog fresh ++ [(TSession, darwin_day1)]) [] [].

(** The catalog after [Session.populate] in the accepting world. *)
Definition populated : state :=
  (Session.populate (world accept_all) monkey rig task None None fresh).2.

End Sample.

(* ===================================================================== *)
(** ** Notions used to state the properties                               *)
(* ===================================================================== *)

(** [m] takes every state to one that [R] relates to it, whether it
    returns or raises. *)
Definition preserves (R : state → state → Prop) {A} (m : M A) : Prop :=
  ∀ st, R st (m st).2.

(** The open handles are the same. *)
Definition same_handles (st st' : state) : Prop := handles st' = handles st.

(** The catalog grew by rows that all satisfy [P]. *)
Definition appends (P : table * row → Prop) (st st' : state) : Prop :=
  ∃ new, catalog st' = catalog st ++ new ∧ Forall P new.

(** The pattern has neither [^] nor [$]. *)
Fixpoint anchor_free (r : Re.regex) : bool :=
  match r with
  | Re.REps | Re.RClass _ | Re.RStar _ => true
  | Re.RSeq r1 r2 | Re.RAlt r1 r2 => anchor_free r1 && anchor_free r2
  | Re.RBol | Re.REol => false
  end.

(** [w] occurs somewhere in [s]. *)
Definition contains (w s : string) : Prop := ∃ pre post, s = pre +:+ w +:+ post.

(** The name of a vendor file of the first ten of a recording: [emg] or
    [neu], [_00], a digit, [.ns], a digit. *)
Definition nsx_shape (w : string) : Prop :=
  ∃ kind c n,
    (kind = "emg" ∨ kind = "neu") ∧ Re.is_digit c = true ∧ Re.is_digit n = true
    ∧ w = kind +:+ "_00" +:+ String c (".ns" +:+ String n "").

(** What the vendor-file pattern has after its alternation. *)
Definition nsx_tail : Re.regex :=
  Re.seq [Re.lit "_00"; Re.digit; Re.lit ".ns"; Re.digit].

(** [m] neither reads nor writes the state. *)
Definition stateless {A} (m : M A) : Prop := ∃ r, ∀ st, m st = (r, st).

Module Pass.
Section WithEnv.
Context (E : env) (task : query) (nsp_key : row) (raw_path : string).

(** What the two directory locals are bound to once they are bound. *)
Definition behavior_dir_of : option string :=
  if rel_bool (restrict task {[ "task_controller_hardware" := VStr "Speedgoat" ]})
  then Some "speedgoat" else None.

Definition ephys_dir_of (hardware : value) : option string :=
  if decide (hardware = VStr "Cerebus") then Some "blackrock" else None.

(** The locals are unbound or hold the one value they can be bound to. *)
Definition locals_ok (lv : Session.locals) : Prop :=
  (Session.behavior_dir lv = None ∨ Session.behavior_dir lv = behavior_dir_of)
  ∧ (Session.ephys_dir lv = None
     ∨ ∃ hw, nsp_key !! "hardware" = Some hw ∧ Session.ephys_dir lv = ephys_dir_of hw).

(** The pass on [date] ends in one of its two [except StopIteration]
    clauses: the session directory can be listed and lacks the behavior
    directory, or has it and lacks the ephys directory. *)
Definition skipped (date : string) : Prop :=
  ∃ files, listdir E ((raw_path +:+ date) +:+ "/") = Some files ∧
    (first_equal "behavior_dir" behavior_dir_of files = Raise StopIteration
     ∨ ∃ x hw,
         first_equal "behavior_dir" behavior_dir_of files = Ok x
         ∧ nsp_key !! "hardware" = Some hw
         ∧ first_equal "ephys_dir" (ephys_dir_of hw) files = Raise StopIteration).

(** A Session row is of [date], and the listing of that date has
    [speedgoat]; rows of other tables are not restricted. *)
Definition dated (date : string) (p : table * row) : Prop :=
  p.1 = TSession →
  p.2 !! "session_date" = Some (VStr date)
  ∧ ∃ files, listdir E ((raw_path +:+ date) +:+ "/") = Some files
             ∧ "speedgoat" ∈ files.

End WithEnv.
End Pass.
(* ===================================================================== *)
(** * Properties                                                          *)
(* ===================================================================== *)

(** ** Strings *)

Lemma str_app_nil_r (s : string) : s +:+ "" = s.
Proof.
  induction s as [|a s IH]; [done|].
  unfold String.app in *. simpl. by rewrite IH.
Qed.

Lemma str_app_assoc (s1 s2 s3 : string) : (s1 +:+ s2) +:+ s3 = s1 +:+ s2 +:+ s3.
Proof.
  induction s1 as [|a s IH]; [done|].
  unfold String.app in *. simpl. by rewrite IH.
Qed.

Lemma str_app_cons a (s1 s2 : string) : String a s1 +:+ s2 = String a (s1 +:+ s2).
Proof. done. Qed.

(** ** What the patterns find *)

Ltac use_true :=
  repeat match goal with
         | H : _ && _ = true |- _ => apply andb_prop in H as [? ?]
         end;
  repeat match goal with H : _ = true |- _ => rewrite H; clear H end;
  done.

(** A search succeeds when the pattern matches at some position; only at
    the first one does [^] hold. *)
Lemma search_from_spec r b s :
  Re.search_from r b s = true ↔
  ∃ pre post, s = pre +:+ post ∧
    Re.rmatch r (b && bool_decide (pre = "")) post Re.accept = true.
Proof.
  revert b. induction s as [|a s IH]; intros b; simpl.
  - rewrite orb_false_r. split.
    + intros H. exists "", "". by rewrite andb_true_r.
    + intros (pre & post & Hs & H). destruct pre, post; try done.
      by rewrite andb_true_r in H.
  - rewrite orb_true_iff, IH. split.
    + intros [H | (pre & post & -> & H)].
      * exists "", (String a s). by rewrite andb_true_r.
      * exists (String a pre), post. split; [done|].
        by rewrite andb_false_r.
    + intros (pre & post & Hs & H). destruct pre as [|a' pre].
      * left. rewrite andb_true_r in H. by rewrite Hs.
      * right. rewrite str_app_cons in Hs. injection Hs as -> ->.
        exists pre, post. split; [done|]. by rewrite andb_false_r in H.
Qed.

Lemma rmatch_date_re b s :
  Re.rmatch Re.date_re b s Re.accept = true ↔
  ∃ d rest, s = d +:+ rest ∧ Shape.date_shape d = true.
Proof.
  split.
  - destruct s as [|c1 [|c2 [|c3 [|c4 [|c5 [|c6 [|c7 [|c8 [|c9 [|c10 rest]]]]]]]]]];
      cbn -[Re.is_digit Ascii.eqb]; rewrite ?andb_false_r; try discriminate.
    intros H. exists (String c1 (String c2 (String c3 (String c4 (String c5
      (String c6 (String c7 (String c8 (String c9 (String c10 "")))))))))), rest.
    split; [done|]. cbn -[Re.is_digit Ascii.eqb]. use_true.
  - intros (d & rest & -> & H). unfold Shape.date_shape in H.
    destruct d as [|c1 [|c2 [|c3 [|c4 [|c5 [|c6 [|c7 [|c8 [|c9 [|c10 [|c11 d]]]]]]]]]]];
      cbn -[Re.is_digit Ascii.eqb] in H; try discriminate.
    rewrite !str_app_cons. cbn -[Re.is_digit Ascii.eqb]. use_true.
Qed.

(** [re.search(r'\d{4}-\d{2}-\d{2}', s)] finds a date anywhere in [s]. *)
Lemma search_date_re s :
  Re.search Re.date_re s = true ↔ Shape.contains_date s.
Proof.
  unfold Re.search, Shape.contains_date. rewrite search_from_spec. split.
  - intros (pre & post & -> & H). apply rmatch_date_re in H as (d & rest & -> & H).
    by exists pre, d, rest.
  - intros (pre & d & post & -> & H). exists pre, (d +:+ post). split; [done|].
    apply rmatch_date_re. by exists d, post.
Qed.

Lemma search_from_brain_re_later s : Re.search_from Re.brain_re false s = false.
Proof. induction s as [|a s IH]; [done|]. simpl. by rewrite IH. Qed.

(** [re.search('^\d', s)] looks at the first character only. *)
Lemma search_brain_re s : Re.search Re.brain_re s = Shape.starts_with_digit s.
Proof.
  destruct s as [|a s]; [done|]. unfold Re.search. simpl.
  rewrite search_from_brain_re_later. unfold Re.accept.
  by rewrite andb_true_r, orb_false_r.
Qed.

Lemma rmatch_emg_re b s :
  Re.rmatch Re.emg_re b s Re.accept = true ↔
  ∃ w, Shape.ainp_1_8 w = true ∧ (s = w ∨ s = w +:+ String Re.newline "").
Proof.
  split.
  - destruct s as [|c1 [|c2 [|c3 [|c4 [|c5 rest]]]]];
      cbn -[Re.in_range Ascii.eqb Re.at_eol]; rewrite ?andb_false_r; try discriminate.
    intros H.
    exists (String c1 (String c2 (String c3 (String c4 (String c5 ""))))).
    assert (Re.at_eol rest = true) as Heol by use_true.
    split; [cbn -[Re.in_range Ascii.eqb]; use_true|].
    destruct rest as [|n [|??]]; simpl in Heol; try discriminate; [by left|right].
    apply Ascii.eqb_eq in Heol as ->. done.
  - intros (w & H & Hs). unfold Shape.ainp_1_8 in H.
    destruct w as [|c1 [|c2 [|c3 [|c4 [|c5 [|c6 w]]]]]];
      cbn -[Re.in_range Ascii.eqb] in H; try discriminate.
    destruct Hs as [-> | ->]; rewrite ?str_app_cons;
      cbn -[Re.in_range Ascii.eqb]; use_true.
Qed.

(** [re.search('ainp[1-8]$', s)] finds [ainpN] at the end of [s], or just
    before a newline that ends [s]. *)
Lemma search_emg_re s :
  Re.search Re.emg_re s = true ↔ Shape.ends_in_ainp_nl s.
Proof.
  unfold Re.search, Shape.ends_in_ainp_nl. rewrite search_from_spec. split.
  - intros (pre & post & -> & H). apply rmatch_emg_re in H as (w & H & Hs).
    exists pre, w. split; [done|]. destruct Hs as [-> | ->]; auto.
  - intros (pre & w & H & [-> | ->]).
    + exists pre, w. split; [done|]. apply rmatch_emg_re. eauto.
    + exists pre, (w +:+ String Re.newline ""). split; [done|].
      apply rmatch_emg_re. eauto.
Qed.

Lemma ends_in_ainp_nl_of s : Shape.ends_in_ainp s → Shape.ends_in_ainp_nl s.
Proof. intros (pre & w & -> & H). exists pre, w. auto. Qed.

Example search_date_whole : Re.search Re.date_re "2021-01-01" = true.
Proof. reflexivity. Qed.
Example search_date_none : Re.search Re.date_re "scratch" = false.
Proof. reflexivity. Qed.
Example search_nsx_first : Re.search Re.nsx_re "foo_neu_001.ns5" = true.
Proof. reflexivity. Qed.
Example search_nsx_tenth : Re.search Re.nsx_re "foo_neu_011.ns5" = false.
Proof. reflexivity. Qed.
Example search_summary_inside : Re.search Re.summary_re "a.summary.bak" = true.
Proof. reflexivity. Qed.
Example search_notes_inside : Re.search Re.notes_re "old_notes.txt~" = true.
Proof. reflexivity. Qed.

(** ** The session scanner (claim C8) *)

Lemma sorted_StronglySorted l : StronglySorted String.le (Session.sorted l).
Proof. apply StronglySorted_merge_sort; apply _. Qed.

Lemma sorted_elem_of l x : x ∈ Session.sorted l ↔ x ∈ l.
Proof. unfold Session.sorted. by rewrite merge_sort_Permutation. Qed.

Lemma StronglySorted_filter_str (P : string → Prop) `{∀ x, Decision (P x)} l :
  StronglySorted String.le l → StronglySorted String.le (filter P l).
Proof.
  induction 1 as [|x l Hl IH Hx]; [constructor|].
  rewrite filter_cons. case_decide; [|done].
  constructor; [done|]. apply Forall_forall. intros y Hy%list_elem_of_filter.
  rewrite Forall_forall in Hx. apply Hx. tauto.
Qed.

Lemma elem_of_select_dates_nil raw_dir d :
  d ∈ Session.select_dates [] raw_dir ↔ d ∈ raw_dir ∧ Shape.contains_date d.
Proof.
  unfold Session.select_dates. rewrite list_elem_of_filter, search_date_re. tauto.
Qed.

Lemma elem_of_session_dates_nil sessions listing d :
  d ∈ Session.session_dates sessions [] listing ↔
  d ∈ listing ∧ Shape.contains_date d ∧ Session.in_table sessions d = false.
Proof.
  unfold Session.session_dates, Session.not_in_table.
  rewrite list_elem_of_filter, elem_of_select_dates_nil, sorted_elem_of. tauto.
Qed.

Lemma session_dates_sorted sessions dates listing :
  StronglySorted String.le (Session.session_dates sessions dates listing).
Proof.
  unfold Session.session_dates, Session.not_in_table, Session.select_dates.
  apply StronglySorted_filter_str.
  destruct dates; apply StronglySorted_filter_str, sorted_StronglySorted.
Qed.

(** What the scanner returns: lines 116-126 read the listing and the table
    and change nothing. *)
Lemma scan_eq E dates raw_path listing st :
  listdir E raw_path = Some listing →
  Session.scan E dates raw_path st =
    (Ok (Session.session_dates (table_rel TSession (catalog st)) dates listing), st).
Proof.
  intros H. unfold Session.scan, os_listdir, from_opt, lift, mbind, M_bind.
  by rewrite H.
Qed.




(** ** Running the monad *)

Lemma bind_Ok {A B} (m : M A) (f : A → M B) st a st' :
  m st = (Ok a, st') → (m ≫= f) st = f a st'.
Proof. intros H. unfold mbind, M_bind. by rewrite H. Qed.

Lemma bind_Raise {A B} (m : M A) (f : A → M B) st e st' :
  m st = (Raise e, st') → (m ≫= f) st = (Raise e, st').
Proof. intros H. unfold mbind, M_bind. by rewrite H. Qed.

Lemma bind_Ok_inv {A B} (m : M A) (f : A → M B) st b st' :
  (m ≫= f) st = (Ok b, st') →
  ∃ a st1, m st = (Ok a, st1) ∧ f a st1 = (Ok b, st').
Proof.
  unfold mbind, M_bind. destruct (m st) as [[a|e] st1]; [eauto|discriminate].
Qed.

Lemma insert1_accepted E t r st :
  insert_ok E t r (catalog st) = true →
  insert1 E t r st
    = (Ok (), State (catalog st ++ [(t, r)]) (stdout st) (handles st)).
Proof. intros H. unfold insert1. by rewrite H. Qed.

Lemma insert1_refused E t r st :
  insert_ok E t r (catalog st) = false →
  insert1 E t r st = (Raise (InsertError t r), st).
Proof. intros H. unfold insert1. by rewrite H. Qed.

(** ** Properties every step keeps *)

Section Preserves.
Context (R : state → state → Prop) `{!PreOrder R}.

Lemma preserves_lift {A} (r : result A) : preserves R (lift r).
Proof. intros st. reflexivity. Qed.

Lemma preserves_ret {A} (a : A) : preserves R (mret a).
Proof. intros st. reflexivity. Qed.

Lemma preserves_bind {A B} (m : M A) (f : A → M B) :
  preserves R m → (∀ a, preserves R (f a)) → preserves R (m ≫= f).
Proof.
  intros Hm Hf st. unfold mbind, M_bind. specialize (Hm st).
  destruct (m st) as [[a|e] st1]; simpl in *; [|done].
  etrans; [exact Hm|apply Hf].
Qed.

Lemma preserves_try_stop {A B} (body : M A) (handler : M B) (cont : A → M B) :
  preserves R body → preserves R handler → (∀ a, preserves R (cont a)) →
  preserves R (try_stop body handler cont).
Proof.
  intros Hb Hh Hc st. unfold try_stop. specialize (Hb st).
  destruct (body st) as [[a|e] st1]; simpl in *.
  - etrans; [exact Hb|apply Hc].
  - destruct e; try done. etrans; [exact Hb|apply Hh].
Qed.

Lemma preserves_for_each {A B} (body : A → B → M B) xs acc :
  (∀ x a, preserves R (body x a)) → preserves R (for_each body xs acc).
Proof.
  intros Hb. revert acc. induction xs as [|x xs IH]; intros acc; simpl.
  - apply preserves_ret.
  - apply preserves_bind; auto.
Qed.

Lemma preserves_for_enum {A B} (body : nat → A → B → M B) i xs acc :
  (∀ j x a, preserves R (body j x a)) → preserves R (for_enum body i xs acc).
Proof.
  intros Hb. revert i acc. induction xs as [|x xs IH]; intros i acc; simpl.
  - apply preserves_ret.
  - apply preserves_bind; auto.
Qed.

Lemma preserves_if {A} (b : bool) (m1 m2 : M A) :
  preserves R m1 → preserves R m2 → preserves R (if b then m1 else m2).
Proof. by destruct b. Qed.

Lemma preserves_get_table t : preserves R (get_table t).
Proof. intros st. reflexivity. Qed.

End Preserves.

Create HintDb preserves.
#[global] Hint Resolve preserves_lift preserves_ret preserves_bind
  preserves_try_stop preserves_for_each preserves_for_enum preserves_get_table
  : preserves.

Global Instance same_handles_preorder : PreOrder same_handles.
Proof.
  split; [done|]. intros st1 st2 st3 H1 H2. unfold same_handles in *. congruence.
Qed.

Lemma insert1_same_handles E t r : preserves same_handles (insert1 E t r).
Proof. intros st. unfold insert1. by destruct (insert_ok _ _ _ _). Qed.

Global Instance appends_preorder P : PreOrder (appends P).
Proof.
  split.
  - intros st. exists []. by rewrite app_nil_r.
  - intros st1 st2 st3 (n1 & H1 & F1) (n2 & H2 & F2). exists (n1 ++ n2).
    rewrite H2, H1, app_assoc. split; [done|]. by apply Forall_app.
Qed.

Lemma insert1_appends (P : table * row → Prop) E t r :
  P (t, r) → preserves (appends P) (insert1 E t r).
Proof.
  intros HP st. unfold insert1. destruct (insert_ok _ _ _ _); simpl.
  - exists [(t, r)]. split; [done|]. by constructor.
  - reflexivity.
Qed.

Lemma print_appends P line : preserves (appends P) (print line).
Proof. intros st. exists []. simpl. by rewrite app_nil_r. Qed.

Lemma with_open_appends {A} P E path (body : string → M A) :
  (∀ text, preserves (appends P) (body text)) →
  preserves (appends P) (with_open E path body).
Proof.
  intros Hb st. unfold with_open. destruct (read_text E path) as [text|]; [|reflexivity].
  specialize (Hb text (State (catalog st) (stdout st) (path :: handles st))).
  destruct (body text _) as [res st']. destruct Hb as (new & Hn & HP).
  by exists new.
Qed.

(** ** Channel labels (claim C4) *)

Lemma classify_cases label :
  (Shape.starts_with_digit label = true
     ∧ EphysRecording.classify label = Some "brain")
  ∨ (Shape.starts_with_digit label = false ∧ Shape.ends_in_ainp_nl label
     ∧ EphysRecording.classify label = Some "emg")
  ∨ (Shape.starts_with_digit label = false ∧ ¬ Shape.ends_in_ainp_nl label
     ∧ label = "ainp15" ∧ EphysRecording.classify label = Some "stim")
  ∨ (Shape.starts_with_digit label = false ∧ ¬ Shape.ends_in_ainp_nl label
     ∧ label = "ainp16" ∧ EphysRecording.classify label = Some "sync")
  ∨ (Shape.starts_with_digit label = false ∧ ¬ Shape.ends_in_ainp_nl label
     ∧ label ≠ "ainp15" ∧ label ≠ "ainp16" ∧ EphysRecording.classify label = None).
Proof.
  unfold EphysRecording.classify. rewrite search_brain_re.
  destruct (Shape.starts_with_digit label) eqn:Hd; [by left|right].
  destruct (Re.search Re.emg_re label) eqn:He.
  { left. by rewrite <- search_emg_re. }
  right.
  assert (¬ Shape.ends_in_ainp_nl label) as Hn.
  { rewrite <- search_emg_re. congruence. }
  destruct (decide (label = "ainp15")); [by left|right].
  destruct (decide (label = "ainp16")); [by left|by right].
Qed.

(** C4, as the code has it: the rules are tried in the order brain, emg,
    stim, sync and the first that applies decides.  A label that starts
    with a digit is brain; one that does not and ends in ainpN (N from 1
    to 8), with or without one closing newline, is emg; ainp15 is stim;
    ainp16 is sync; any other label, such as weird, gets none.  The row of
    a channel carries the label found; built on a primary key without
    label, the row of an unlabelled channel has none; and the row goes to
    [Channel.insert1] in every case. *)
Theorem C4_labels_by_first_matching_rule (E : env) (label : string) :
  (EphysRecording.classify label = Some "brain"
     ↔ Shape.starts_with_digit label = true)
  ∧ (EphysRecording.classify label = Some "emg"
     ↔ Shape.starts_with_digit label = false ∧ Shape.ends_in_ainp_nl label)
  ∧ (EphysRecording.classify label = Some "stim" ↔ label = "ainp15")
  ∧ (EphysRecording.classify label = Some "sync" ↔ label = "ainp16")
  ∧ (EphysRecording.classify label = None
     ↔ Shape.starts_with_digit label = false ∧ ¬ Shape.ends_in_ainp_nl label
       ∧ label ≠ "ainp15" ∧ label ≠ "ainp16")
  ∧ (∀ primary_key j id c,
       EphysRecording.classify label = Some c →
       EphysRecording.channel_row primary_key j (Electrode id label)
         !! "channel_label" = Some (VStr c))
  ∧ (∀ primary_key j id,
       EphysRecording.classify label = None →
       primary_key !! "channel_label" = None →
       EphysRecording.channel_row primary_key j (Electrode id label)
         !! "channel_label" = None)
  ∧ (∀ primary_key j id key st,
       let r := EphysRecording.channel_row primary_key j (Electrode id label) in
       insert_ok E TEphysChannel r (catalog st) = true →
       EphysRecording.insert_channel E primary_key j (Electrode id label) key st
         = (Ok r, State (catalog st ++ [(TEphysChannel, r)]) (stdout st) (handles st))).
Proof.
  assert (Shape.starts_with_digit "ainp15" = false) as H15 by reflexivity.
  assert (Shape.starts_with_digit "ainp16" = false) as H16 by reflexivity.
  assert (¬ Shape.ends_in_ainp_nl "ainp15") as E15.
  { rewrite <- search_emg_re. discriminate. }
  assert (¬ Shape.ends_in_ainp_nl "ainp16") as E16.
  { rewrite <- search_emg_re. discriminate. }
  pose proof (classify_cases label) as Hc.
  split; [|split; [|split; [|split; [|split; [|split; [|split]]]]]].
  - split; intros ?; destruct Hc as [?|[?|[?|[?|?]]]]; destruct_and?; congruence.
  - split; intros ?; destruct Hc as [?|[?|[?|[?|?]]]]; destruct_and?;
      try split; try congruence; done.
  - split; intros ?; destruct Hc as [?|[?|[?|[?|?]]]]; destruct_and?;
      try congruence; subst; try congruence; done.
  - split; intros ?; destruct Hc as [?|[?|[?|[?|?]]]]; destruct_and?;
      try congruence; subst; try congruence; done.
  - split; intros ?; destruct Hc as [?|[?|[?|[?|?]]]]; destruct_and?;
      try congruence; done.
  - intros primary_key j id c Hl. unfold EphysRecording.channel_row. simpl.
    rewrite Hl. apply lookup_insert_eq.
  - intros primary_key j id Hl Hpk. unfold EphysRecording.channel_row. simpl.
    rewrite Hl. by rewrite !lookup_insert_ne.
  - intros primary_key j id key st r Hok. unfold EphysRecording.insert_channel.
    fold r. by rewrite (bind_Ok _ _ _ _ _ (insert1_accepted _ _ _ _ Hok)).
Qed.

Lemma C4_witness :
  EphysRecording.classify "137" = Some "brain"
  ∧ EphysRecording.classify "ainp3" = Some "emg"
  ∧ EphysRecording.classify "ainp15" = Some "stim"
  ∧ EphysRecording.classify "ainp16" = Some "sync"
  ∧ EphysRecording.classify "weird" = None
  ∧ EphysRecording.channel_row Sample.day1 0 (Electrode 7 "weird") !! "channel_label"
    = None.
Proof.
  split; [reflexivity|]. split; [reflexivity|].
  split; [by apply (C4_labels_by_first_matching_rule (Sample.world Sample.accept_all))|].
  split; [by apply (C4_labels_by_first_matching_rule (Sample.world Sample.accept_all))|].
  split; [reflexivity|].
  apply (C4_labels_by_first_matching_rule (Sample.world Sample.accept_all) "weird");
    reflexivity.
Defined.

(** C4 as the claim has it fails on a label that two of its rules cover:
    1ainp3 ends in ainp3, and is labelled brain, not emg. *)
Lemma C4_counterexample :
  ¬ (Shape.ends_in_ainp "1ainp3" → EphysRecording.classify "1ainp3" = Some "emg").
Proof.
  intros H. assert (Shape.ends_in_ainp "1ainp3") as He by (by exists "1", "ainp3").
  specialize (H He). discriminate H.
Qed.

(** ** The vendor file handle (claim C5) *)

Lemma insert_channel_same_handles E primary_key j elec key :
  preserves same_handles (EphysRecording.insert_channel E primary_key j elec key).
Proof.
  unfold EphysRecording.insert_channel.
  apply preserves_bind; [apply _|apply insert1_same_handles|].
  intros _. apply preserves_ret. apply _.
Qed.

Lemma remove_first_head x l : remove_first x (x :: l) = l.
Proof. simpl. by rewrite decide_True. Qed.

(** C5, as the code has it: the handle that [ingest_file] opens is closed
    by the last statement of the pass and by nothing else.  When the pass
    runs to its end, the open handles are those from before it; when
    anything after the opening raises (the read of the first channel, the
    insertion of the file's row, the insertion of one of its channel
    rows), the exception leaves the pass with the handle still open. *)
Theorem C5_handle_closed_only_at_end_of_pass (E : env) (i : nat) (pth : string)
    (key : row) (st : state) (f : NsxContents) :
  nsx_read E pth = Some f →
  match EphysRecording.ingest_file E i pth key st with
  | (Ok _, st') => handles st' = handles st
  | (Raise _, st') => handles st' = pth :: handles st
  end.
Proof.
  intros Hread. unfold EphysRecording.ingest_file.
  unfold mbind at 1, M_bind at 1, nsx_open. rewrite Hread.
  unfold mbind at 1, M_bind at 1, from_opt, lift.
  destruct (head (extended_headers f)) as [first|]; simpl; [|done].
  unfold mbind at 1, M_bind at 1.
  destruct (getdata f (ElectrodeID first)) as [nsx_data|]; simpl; [|done].
  unfold mbind at 1, M_bind at 1.
  match goal with |- context [insert1 E TEphysRecording ?r ?s] =>
    pose proof (insert1_same_handles E TEphysRecording r s) as Hi;
    destruct (insert1 E TEphysRecording r s) as [[[]|e] st1]
  end; unfold same_handles in Hi; simpl in Hi; [|done].
  unfold mbind at 1, M_bind at 1.
  match goal with |- context [for_enum ?b ?n ?l ?k st1] =>
    pose proof (preserves_for_enum same_handles b n l k
                  (insert_channel_same_handles E _) st1) as Hc;
    destruct (for_enum b n l k st1) as [[key'|e] st2]
  end; unfold same_handles in Hc; simpl in Hc; [|congruence].
  unfold mbind, M_bind, nsx_close. simpl.
  rewrite Hc, Hi. apply remove_first_head.
Qed.

Lemma C5_witness :
  handles (EphysRecording.ingest_file (Sample.world Sample.accept_all) 0
             (Sample.raw +:+ "2021-01-04/blackrock/bar_emg_001.ns3")
             Sample.day4 Sample.populated).2 = []
  ∧ handles (EphysRecording.ingest_file (Sample.world Sample.strict) 0
               (Sample.raw +:+ "2021-01-04/blackrock/bar_emg_001.ns3")
               Sample.day4 Sample.populated).2
    = [Sample.raw +:+ "2021-01-04/blackrock/bar_emg_001.ns3"].
Proof.
  split.
  - pose proof (C5_handle_closed_only_at_end_of_pass
                  (Sample.world Sample.accept_all) 0
                  (Sample.raw +:+ "2021-01-04/blackrock/bar_emg_001.ns3")
                  Sample.day4 Sample.populated _ eq_refl) as H.
    vm_compute in H. vm_compute. exact H.
  - vm_compute. reflexivity.
Defined.

(** C5 as the claim has it fails when the catalog refuses a channel row:
    the second electrode of the file has a label no rule knows, a catalog
    that wants a label refuses its row, and [make] ends with the first
    channel recorded and the file still open. *)
Lemma C5_counterexample :
  let out := EphysRecording.make (Sample.world Sample.strict) Sample.day4
               Sample.populated in
  out.1 = Raise (InsertError TEphysChannel
            (EphysRecording.channel_row (<[ "ephys_file_id" := VInt 0 ]> Sample.day4)
               1 (Electrode 130 "weird")))
  ∧ length (rows_of TEphysChannel (catalog out.2)) = 1
  ∧ handles out.2 = [Sample.raw +:+ "2021-01-04/blackrock/bar_emg_001.ns3"].
Proof. cbv zeta. split; [|split]; vm_compute; reflexivity. Qed.

(** ** Steps that only read *)

Ltac reads :=
  repeat first
    [ apply preserves_lift; solve [apply _]
    | apply preserves_ret; solve [apply _]
    | apply preserves_get_table; solve [apply _]
    | apply preserves_bind; [solve [apply _] | | intros ?]
    | progress auto with preserves ].

Section Reads.
Context (R : state → state → Prop) `{!PreOrder R}.

Lemma fetch1_reads Q : preserves R (fetch1 Q).
Proof. unfold fetch1. destruct (rel_tuples Q) as [|? []]; reads. Qed.

Lemma fetch1_attr_reads Q attr : preserves R (fetch1_attr Q attr).
Proof. unfold fetch1_attr. reads. apply fetch1_reads. Qed.

Lemma fetch1_key_reads Q : preserves R (fetch1_key Q).
Proof. unfold fetch1_key. reads. apply fetch1_reads. Qed.

Lemma as_str_reads v : preserves R (as_str v).
Proof. destruct v; reads. Qed.

Lemma py_str_reads v : preserves R (py_str v).
Proof. destruct v; reads. Qed.

Lemma getrawpath_reads E m r t : preserves R (Session.getrawpath E m r t).
Proof. unfold Session.getrawpath. reads; apply as_str_reads. Qed.

Lemma assert_reads b : preserves R (assert b).
Proof. destruct b; reads. Qed.

Lemma dict_kw_reads a b : preserves R (dict_kw a b).
Proof. unfold dict_kw. destruct (decide _); reads. Qed.

Lemma bind_dict_kw_preserves {A} a b (f : row → M A) :
  (a ##ₘ b → preserves R (f (a ∪ b))) → preserves R (dict_kw a b ≫= f).
Proof.
  intros Hf st. unfold mbind, M_bind, dict_kw.
  destruct (decide (a ##ₘ b)); simpl; [by apply Hf|reflexivity].
Qed.

Lemma behavior_resolve_reads E key : preserves R (BehaviorRecording.resolve E key).
Proof.
  unfold BehaviorRecording.resolve, getitem, from_opt.
  reads; first [apply fetch1_reads | apply as_str_reads | apply py_str_reads
               | apply fetch1_attr_reads].
Qed.

Lemma ephys_resolve_reads E key : preserves R (EphysRecording.resolve E key).
Proof.
  unfold EphysRecording.resolve, getitem, from_opt.
  reads; first [apply fetch1_reads | apply as_str_reads | apply py_str_reads
               | apply fetch1_attr_reads].
Qed.

Lemma check_inputs_reads E monkey rig task nsp :
  preserves R (Session.check_inputs E monkey rig task nsp).
Proof.
  unfold Session.check_inputs, getitem, from_opt.
  reads;
    first [ apply fetch1_reads | apply as_str_reads | apply assert_reads
          | apply preserves_for_each; [apply _|]; intros; apply assert_reads ].
Qed.

End Reads.

(** ** The behavior summary file (claim C2) *)

Lemma filter_none (p : string → bool) xs :
  Forall (λ x, p x = false) xs → filter (λ x, p x = true) xs = [].
Proof.
  induction 1 as [|x xs Hx _ IH]; [done|].
  rewrite filter_cons_False by congruence. done.
Qed.

Lemma first_match_none p xs :
  Forall (λ x, p x = false) xs → first_match p xs = Raise StopIteration.
Proof. intros H. unfold first_match. by rewrite filter_none. Qed.

Lemma first_match_first p pre x post :
  Forall (λ y, p y = false) pre → p x = true →
  first_match p (pre ++ x :: post) = Ok x.
Proof.
  intros Hpre Hx. unfold first_match.
  rewrite filter_app, filter_none by done. simpl.
  by rewrite filter_cons_True.
Qed.

(** C2, as the code has it: for a session with a Speedgoat controller,
    [make] takes the first entry of the speedgoat listing in which
    [.summary] is found.  With no such entry it raises StopIteration and
    the state is as before; with one or more it does not raise for that
    reason: it hands to [insert1] the row with the path of the first such
    entry, whatever follows it in the listing. *)
Theorem C2_first_summary_file_is_recorded (E : env) (key : row) (st : state)
    (raw_path : string) (files : list string) :
  (BehaviorRecording.resolve E key st).1 = Ok (raw_path, VStr "Speedgoat") →
  listdir E (raw_path +:+ "/speedgoat/") = Some files →
  (Forall (λ f, Re.search Re.summary_re f = false) files →
   BehaviorRecording.make E key st = (Raise StopIteration, st))
  ∧ (∀ pre f post,
       files = pre ++ f :: post →
       Forall (λ f, Re.search Re.summary_re f = false) pre →
       Re.search Re.summary_re f = true →
       BehaviorRecording.make E key st
         = insert1 E TBehaviorRecording
             (BehaviorRecording.summary_row E raw_path f key) st).
Proof.
  intros Hres Hls.
  pose proof (behavior_resolve_reads eq E key st) as Hst.
  destruct (BehaviorRecording.resolve E key st) as [res st1] eqn:Hr.
  simpl in Hres, Hst. subst res st1.
  unfold BehaviorRecording.make. rewrite (bind_Ok _ _ _ _ _ Hr).
  unfold BehaviorRecording.record. rewrite decide_True by done.
  unfold os_listdir, from_opt, next_filter. rewrite Hls. simpl.
  split.
  - intros Hnone. unfold mbind, M_bind, lift. simpl.
    rewrite (first_match_none _ _ Hnone). done.
  - intros pre f post -> Hpre Hf. unfold mbind, M_bind, lift. simpl.
    by rewrite (first_match_first _ _ _ _ Hpre Hf).
Qed.

Lemma C2_witness :
  BehaviorRecording.make (Sample.world Sample.strict) Sample.day4 Sample.populated
    = (Raise StopIteration, Sample.populated)
  ∧ BehaviorRecording.make (Sample.world Sample.strict) Sample.day1 Sample.populated
    = insert1 (Sample.world Sample.strict) TBehaviorRecording
        (BehaviorRecording.summary_row (Sample.world Sample.strict)
           (Sample.raw +:+ "2021-01-01") "a.summary" Sample.day1)
        Sample.populated.
Proof.
  split.
  - apply (C2_first_summary_file_is_recorded (Sample.world Sample.strict) Sample.day4
             Sample.populated (Sample.raw +:+ "2021-01-04") ["bar.mat"]);
      [vm_compute; reflexivity | vm_compute; reflexivity |].
    repeat constructor.
  - apply (proj2 (C2_first_summary_file_is_recorded (Sample.world Sample.strict)
                    Sample.day1 Sample.populated (Sample.raw +:+ "2021-01-01")
                    ["a.summary"; "b.summary"]
                    ltac:(vm_compute; reflexivity) ltac:(vm_compute; reflexivity))
             [] "a.summary" ["b.summary"]);
      [reflexivity | constructor | reflexivity].
Defined.

(** C2 as the claim has it fails on a speedgoat directory with two summary
    files: [make] raises nothing and records the first of them. *)
Lemma C2_counterexample :
  let out := BehaviorRecording.make (Sample.world Sample.strict) Sample.day1
               Sample.populated in
  Sample.tree (Sample.raw +:+ "2021-01-01/speedgoat/") = Some ["a.summary"; "b.summary"]
  ∧ out.1 = Ok ()
  ∧ rows_of TBehaviorRecording (catalog out.2)
    = [ <[ "behavior_sample_rate" := VInt 1000 ]>
          (<[ "behavior_summary_file_path" :=
                VStr (Sample.raw +:+ "2021-01-01/speedgoat/a.summary") ]> Sample.day1) ].
Proof. cbv zeta. split; [|split]; vm_compute; reflexivity. Qed.

(** ** The rows of the ephys files (claim C1) *)

Ltac inv_bind H :=
  let a := fresh "a" in
  let s := fresh "s" in
  let Ha := fresh "Ha" in
  let H' := fresh "H" in
  destruct (bind_Ok_inv _ _ _ _ _ H) as (a & s & Ha & H'); clear H; rename H' into H.

Lemma rows_of_app t (c1 c2 : list (table * row)) :
  rows_of t (c1 ++ c2) = rows_of t c1 ++ rows_of t c2.
Proof. unfold rows_of. by rewrite filter_app, fmap_app. Qed.

Lemma rows_of_other t (new : list (table * row)) :
  Forall (λ p, p.1 ≠ t) new → rows_of t new = [].
Proof.
  intros H. unfold rows_of.
  induction H as [|p new Hp _ IH]; [done|].
  by rewrite filter_cons_False.
Qed.

Lemma rows_of_cons_same t r (c : list (table * row)) :
  rows_of t ((t, r) :: c) = r :: rows_of t c.
Proof. unfold rows_of. by rewrite filter_cons_True. Qed.

Lemma insert_channel_appends E primary_key j elec key :
  preserves (appends (λ p, p.1 = TEphysChannel))
    (EphysRecording.insert_channel E primary_key j elec key).
Proof.
  unfold EphysRecording.insert_channel.
  apply preserves_bind; [apply _| |intros _; apply preserves_ret; apply _].
  by apply insert1_appends.
Qed.

(** After the inner loop the name [key] is bound to a channel row, unless
    the file had no electrode. *)
Lemma channels_leave_channel_key E primary_key i xs key st key' st' :
  for_enum (EphysRecording.insert_channel E primary_key) i xs key st = (Ok key', st') →
  (xs = [] ∧ key' = key)
  ∨ ∃ j elec, key' = EphysRecording.channel_row primary_key j elec.
Proof.
  revert i key st. induction xs as [|x xs IH]; intros i key st H; simpl in H.
  - left. by injection H as -> _.
  - right. inv_bind H. apply IH in H as [[-> ->] | H]; [|done].
    unfold EphysRecording.insert_channel in Ha. inv_bind Ha.
    injection Ha as <- _. eauto.
Qed.

Lemma channel_row_dom primary_key j elec :
  {[ "channel_index"; "channel_id" ]} ⊆
    dom (EphysRecording.channel_row primary_key j elec).
Proof.
  unfold EphysRecording.channel_row.
  destruct (EphysRecording.classify _); rewrite !dom_insert; set_solver.
Qed.

(** A pass that runs to its end has given [EphysRecording.insert1] the key
    that came in, with the file's fields set, and leaves a channel row
    bound to [key]. *)
Lemma ingest_file_Ok E i pth key st key' st' :
  EphysRecording.ingest_file E i pth key st = (Ok key', st') →
  ∃ r more,
    catalog st' = catalog st ++ (TEphysRecording, r) :: more
    ∧ Forall (λ p, p.1 = TEphysChannel) more
    ∧ dom key ⊆ dom r
    ∧ r !! "ephys_file_id" = Some (VInt (Z.of_nat i))
    ∧ {[ "channel_index"; "channel_id" ]} ⊆ dom key'.
Proof.
  intros H. unfold EphysRecording.ingest_file in H.
  inv_bind H. rename a into f.
  unfold nsx_open in Ha. destruct (nsx_read E pth); [|discriminate].
  injection Ha as -> <-.
  inv_bind H. rename a into first.
  unfold from_opt, lift in Ha.
  destruct (head (extended_headers f)) as [e0|] eqn:Hhd; [|discriminate].
  injection Ha as -> <-.
  inv_bind H. rename a into nsx_data. unfold from_opt, lift in Ha.
  destruct (getdata f (ElectrodeID first)); [|discriminate].
  injection Ha as -> <-.
  inv_bind H. unfold insert1 in Ha. simpl in Ha.
  destruct (insert_ok _ _ _ _); [|discriminate]. injection Ha as _ <-.
  inv_bind H. rename a0 into k.
  match type of Ha with for_enum ?b ?n ?l ?k0 ?s0 = _ =>
    pose proof (preserves_for_enum (appends (λ p, p.1 = TEphysChannel)) b n l k0
                  (insert_channel_appends E _) s0) as (more & Hc & Hmore)
  end.
  rewrite Ha in Hc. simpl in Hc.
  apply channels_leave_channel_key in Ha as [[Hnil _] | (j & elec & ->)].
  { rewrite Hnil in Hhd. discriminate. }
  inv_bind H. unfold nsx_close in Ha. injection Ha as _ <-.
  injection H as <- <-. simpl.
  eexists _, more. split; [by rewrite Hc, <- app_assoc|].
  split; [done|]. split; [rewrite !dom_insert; set_solver|].
  split; [by rewrite !lookup_insert_ne, lookup_insert_eq by done|].
  apply channel_row_dom.
Qed.

(** C1, where the code departs from the claim: whenever the loop gets
    through two files, it has handed two rows to [EphysRecording.insert1],
    with file ids 0 and 1, and the second carries [channel_index] and
    [channel_id]: line 286 rebinds [key] to channel rows, and the next
    pass copies that binding into its primary key and its row. *)
Theorem C1_second_file_row_carries_channel_fields (E : env) (p0 p1 : string)
    (key : row) (st : state) (key' : row) (st' : state) :
  for_enum (EphysRecording.ingest_file E) 0 [p0; p1] key st = (Ok key', st') →
  ∃ r0 r1,
    rows_of TEphysRecording (catalog st')
      = rows_of TEphysRecording (catalog st) ++ [r0; r1]
    ∧ r0 !! "ephys_file_id" = Some (VInt 0)
    ∧ r1 !! "ephys_file_id" = Some (VInt 1)
    ∧ {[ "channel_index"; "channel_id" ]} ⊆ dom r1.
Proof.
  intros H. simpl in H. inv_bind H. inv_bind H. injection H as <- <-.
  apply ingest_file_Ok in Ha as (r0 & m0 & Hc0 & Hm0 & _ & Hid0 & Hk0).
  apply ingest_file_Ok in Ha0 as (r1 & m1 & Hc1 & Hm1 & Hd1 & Hid1 & _).
  assert (rows_of TEphysRecording m0 = []) as E0.
  { apply rows_of_other. eapply Forall_impl; [exact Hm0|]. by intros p ->. }
  assert (rows_of TEphysRecording m1 = []) as E1.
  { apply rows_of_other. eapply Forall_impl; [exact Hm1|]. by intros p ->. }
  exists r0, r1. rewrite Hc1, Hc0.
  rewrite !rows_of_app, !rows_of_cons_same, E0, E1, <- app_assoc.
  split; [done|]. split; [done|]. split; [done|]. set_solver.
Qed.

Lemma C1_witness :
  let files := [Sample.raw +:+ "2021-01-01/blackrock/foo_neu_001.ns5";
                Sample.raw +:+ "2021-01-01/blackrock/foo_neu_002.ns5"] in
  let out := for_enum (EphysRecording.ingest_file (Sample.world Sample.accept_all)) 0
               files Sample.day1 Sample.populated in
  ∃ r0 r1,
    rows_of TEphysRecording (catalog out.2)
      = rows_of TEphysRecording (catalog Sample.populated) ++ [r0; r1]
    ∧ r0 !! "ephys_file_id" = Some (VInt 0)
    ∧ r1 !! "ephys_file_id" = Some (VInt 1)
    ∧ {[ "channel_index"; "channel_id" ]} ⊆ dom r1.
Proof.
  cbv zeta.
  apply (C1_second_file_row_carries_channel_fields (Sample.world Sample.accept_all)
           (Sample.raw +:+ "2021-01-01/blackrock/foo_neu_001.ns5")
           (Sample.raw +:+ "2021-01-01/blackrock/foo_neu_002.ns5")
           Sample.day1 Sample.populated
           (EphysRecording.channel_row
              (<[ "ephys_file_id" := VInt 1 ]>
                 (EphysRecording.channel_row
                    (<[ "ephys_file_id" := VInt 0 ]> Sample.day1)
                    1 (Electrode 129 "ainp1")))
              0 (Electrode 1 "weird"))).
  vm_compute. reflexivity.
Defined.

(** The same call against a catalog that holds rows to the headings: the
    second file's row is refused for its channel fields, and [make] ends
    there, one file recorded and the second left open. *)
Lemma ephys_make_strict_refuses_second_file :
  let out := EphysRecording.make (Sample.world Sample.strict) Sample.day1
               Sample.populated in
  (∃ r, out.1 = Raise (InsertError TEphysRecording r)
        ∧ r !! "ephys_file_id" = Some (VInt 1)
        ∧ r !! "channel_index" = Some (VInt 1)
        ∧ r !! "channel_label" = Some (VStr "emg"))
  ∧ length (rows_of TEphysRecording (catalog out.2)) = 1
  ∧ handles out.2 = [Sample.raw +:+ "2021-01-01/blackrock/foo_neu_002.ns5"].
Proof.
  cbv zeta. split; [|split]; [|vm_compute; reflexivity..].
  eexists. split; [vm_compute; reflexivity|].
  split; [|split]; vm_compute; reflexivity.
Qed.

(** ** The session ingestor: lookups in a listing *)

Lemma first_equal_absent name v files :
  v ∉ files → first_equal name (Some v) files = Raise StopIteration.
Proof.
  intros Hv. destruct files as [|x files]; [done|].
  unfold first_equal. apply first_match_none.
  apply Forall_forall. intros y Hy. apply bool_decide_eq_false. by intros ->.
Qed.

Lemma first_equal_present name v files :
  v ∈ files → first_equal name (Some v) files = Ok v.
Proof.
  intros Hv. destruct files as [|x files]; [by apply elem_of_nil in Hv|].
  unfold first_equal, first_match.
  destruct (filter (λ y, bool_decide (y = v) = true) (x :: files)) as [|y l] eqn:Hf.
  - exfalso. eapply (filter_nil_not_elem_of _ _ v Hf); [|done].
    by apply bool_decide_eq_true.
  - simpl. f_equal.
    assert (y ∈ filter (λ y, bool_decide (y = v) = true) (x :: files)) as Hy
      by (rewrite Hf; left).
    apply list_elem_of_filter in Hy as [Hy _]. by apply bool_decide_eq_true in Hy.
Qed.

Lemma dict_kw_disjoint (a b : row) st : a ##ₘ b → dict_kw a b st = (Ok (a ∪ b), st).
Proof. intros H. unfold dict_kw. by rewrite decide_True. Qed.

Lemma not_elem_of_2 (x a b : string) : x ≠ a → x ≠ b → x ∉ [a; b].
Proof. intros ?? H. apply elem_of_cons in H as [?|H]; [done|].
  apply elem_of_cons in H as [?|H]; [done|]. by apply elem_of_nil in H. Qed.

Lemma not_elem_of_1 (x a : string) : x ≠ a → x ∉ [a].
Proof. intros ? H. apply elem_of_cons in H as [?|H]; [done|].
  by apply elem_of_nil in H. Qed.


(** ** Rows that a run of the ingestor adds *)

Section Adds.
Context (E : env) (P : table * row → Prop).
Hypothesis P_session : ∀ r, P (TSession, r).
Hypothesis P_hardware : ∀ r, P (TSessionHardware, r).
Hypothesis P_notes : ∀ (session_key : row) text,
  session_key ##ₘ {[ "session_notes_id" := VInt 0; "session_notes" := VStr text ]} →
  P (TSessionNotes,
     session_key ∪ {[ "session_notes_id" := VInt 0; "session_notes" := VStr text ]}).

Lemma insert_notes_appends session_path date session_files session_key :
  preserves (appends P)
    (Session.insert_notes E session_path date session_files session_key).
Proof.
  unfold Session.insert_notes.
  apply preserves_try_stop; [apply _|apply preserves_lift, _|apply print_appends|].
  intros f. apply with_open_appends. intros text.
  apply bind_dict_kw_preserves; [apply _|]. intros Hd.
  by apply insert1_appends, P_notes.
Qed.

Lemma insert_session_appends session_path date session_files mk rk tk nk :
  preserves (appends P)
    (Session.insert_session E session_path date session_files mk rk tk nk).
Proof.
  unfold Session.insert_session.
  apply bind_dict_kw_preserves; [apply _|]. intros _.
  apply bind_dict_kw_preserves; [apply _|]. intros _.
  apply bind_dict_kw_preserves; [apply _|]. intros _.
  apply preserves_bind; [apply _|by apply insert1_appends|]. intros _.
  apply preserves_bind; [apply _|apply insert_notes_appends|]. intros _.
  apply bind_dict_kw_preserves; [apply _|]. intros _.
  by apply insert1_appends.
Qed.

Lemma ingest_date_appends task mk rk tk nk raw date lv :
  preserves (appends P) (Session.ingest_date E task mk rk tk nk raw date lv).
Proof.
  unfold Session.ingest_date.
  apply preserves_bind; [apply _|apply preserves_lift, _|]. intros files.
  apply preserves_try_stop; [apply _|apply preserves_lift, _| |].
  { apply preserves_bind; [apply _|apply print_appends|].
    intros _. apply preserves_ret, _. }
  intros _. apply preserves_bind; [apply _|apply preserves_lift, _|]. intros hw.
  apply preserves_try_stop; [apply _|apply preserves_lift, _| |].
  { apply preserves_bind; [apply _|apply print_appends|].
    intros _. apply preserves_ret, _. }
  intros _. apply preserves_bind; [apply _|apply insert_session_appends|].
  intros _. apply preserves_ret, _.
Qed.

Lemma populate_appends monkey rig task dates nsp :
  preserves (appends P) (Session.populate E monkey rig task dates nsp).
Proof.
  unfold Session.populate.
  apply preserves_bind; [apply _| |intros nsp0].
  { destruct nsp; simpl; [apply preserves_ret, _|].
    unfold Session.default_nsp. apply preserves_bind; [apply _| |intros ?].
    - apply preserves_get_table, _.
    - apply preserves_ret, _. }
  apply preserves_bind; [apply _|apply check_inputs_reads, _|intros inp].
  apply preserves_bind; [apply _| |intros ds].
  { unfold Session.scan.
    apply preserves_bind; [apply _|apply preserves_lift, _|intros ?].
    apply preserves_bind; [apply _|apply preserves_get_table, _|intros ?].
    apply preserves_ret, _. }
  apply preserves_bind; [apply _| |intros ?; apply preserves_ret, _].
  apply preserves_for_each; [apply _|]. intros. apply ingest_date_appends.
Qed.

End Adds.


(** ** Dates already in the table (claim C3) *)

Lemma satisfies_session_date (r : row) d :
  satisfies (heading TSession) {[ "session_date" := VStr d ]} r
  ↔ r !! "session_date" = Some (VStr d).
Proof.
  unfold satisfies. rewrite map_Forall_singleton. split; [|by intros].
  intros H. apply H. unfold heading. simpl. apply list_elem_of_here.
Qed.

(** [self & {'session_date': date}] is true when some row of the table has
    that date, whatever its other attributes. *)
Lemma in_table_spec cat d :
  Session.in_table (table_rel TSession cat) d = true
  ↔ ∃ r, r ∈ rows_of TSession cat ∧ r !! "session_date" = Some (VStr d).
Proof.
  unfold Session.in_table, rel_bool, restrict. simpl.
  rewrite bool_decide_eq_true. split.
  - intros Hne.
    destruct (filter _ (rows_of TSession cat)) as [|r l] eqn:Hf; [done|].
    assert (r ∈ filter (satisfies (heading TSession) {[ "session_date" := VStr d ]})
                  (rows_of TSession cat)) as Hr by (rewrite Hf; left).
    apply list_elem_of_filter in Hr as [Hs Hr].
    exists r. split; [done|]. by apply satisfies_session_date.
  - intros (r & Hr & Hd) Hnil.
    eapply (filter_nil_not_elem_of _ _ r Hnil); [|done].
    by apply satisfies_session_date.
Qed.

Lemma in_table_false_spec cat d :
  Session.in_table (table_rel TSession cat) d = false
  ↔ ¬ ∃ r, r ∈ rows_of TSession cat ∧ r !! "session_date" = Some (VStr d).
Proof. rewrite <- in_table_spec. by destruct (Session.in_table _ _). Qed.

Lemma elem_of_rows_of t r (cat : list (table * row)) :
  r ∈ rows_of t cat ↔ (t, r) ∈ cat.
Proof.
  unfold rows_of. rewrite list_elem_of_fmap. split.
  - intros ([t' r'] & -> & H). apply list_elem_of_filter in H as [Ht H].
    simpl in Ht. by subst.
  - intros H. exists (t, r). split; [done|]. by apply list_elem_of_filter.
Qed.

(** ** Steps without state *)

Lemma stateless_lift {A} (r : result A) : stateless (lift r).
Proof. by exists r. Qed.

Lemma stateless_bind {A B} (m : M A) (f : A → M B) :
  stateless m → (∀ a, stateless (f a)) → stateless (m ≫= f).
Proof.
  intros [r Hm] Hf. destruct r as [a|e].
  - destruct (Hf a) as [r' Hr']. exists r'. intros st.
    unfold mbind, M_bind. by rewrite Hm, Hr'.
  - exists (Raise e). intros st. unfold mbind, M_bind. by rewrite Hm.
Qed.

Lemma stateless_for_each {A B} (body : A → B → M B) xs acc :
  (∀ x a, stateless (body x a)) → stateless (for_each body xs acc).
Proof.
  intros Hb. revert acc. induction xs as [|x xs IH]; intros acc; simpl.
  - apply (stateless_lift (Ok acc)).
  - apply stateless_bind; auto.
Qed.

Lemma stateless_fetch1 Q : stateless (fetch1 Q).
Proof.
  unfold fetch1. destruct (rel_tuples Q) as [|r []];
    first [apply (stateless_lift (Ok r)) | apply stateless_lift].
Qed.

Lemma stateless_assert b : stateless (assert b).
Proof. destruct b; [apply (stateless_lift (Ok ()))|apply stateless_lift]. Qed.

Lemma stateless_as_str v : stateless (as_str v).
Proof. destruct v; first [apply (stateless_lift (Ok s)) | apply stateless_lift]. Qed.

Ltac no_state :=
  repeat first
    [ apply stateless_lift
    | apply stateless_fetch1 | apply stateless_assert | apply stateless_as_str
    | apply stateless_bind; [|intros ?]
    | apply stateless_for_each; intros ].

Lemma stateless_check_inputs E monkey rig task nsp :
  stateless (Session.check_inputs E monkey rig task nsp).
Proof.
  unfold Session.check_inputs, fetch1_attr, fetch1_key, getitem, from_opt,
    Session.getrawpath.
  no_state;
    match goal with |- stateless (mret ?a) => apply (stateless_lift (Ok a)) end.
Qed.

(** ** One pass of the loop over the dates *)

Section Passes.
Context (E : env) (task : query) (mk rk tk nk : row) (raw : string).

Let step := Session.ingest_date E task mk rk tk nk raw.
Let ok := Pass.locals_ok task nk.
Let skipped := Pass.skipped E task nk raw.

Lemma dict_kw_Ok_inv (a b : row) st r st' :
  dict_kw a b st = (Ok r, st') → r = a ∪ b ∧ st' = st.
Proof.
  unfold dict_kw. destruct (decide _); [|discriminate]. by intros [= <- <-].
Qed.

(** A session that gets through both checks has its row in the catalog. *)
Lemma insert_session_Ok session_path date files st st' :
  Session.insert_session E session_path date files mk rk tk nk st = (Ok (), st') →
  ∃ r, (TSession, r) ∈ catalog st' ∧ r !! "session_date" = Some (VStr date).
Proof.
  intros H. unfold Session.insert_session in H.
  inv_bind H. apply dict_kw_Ok_inv in Ha as [-> ->].
  inv_bind H. apply dict_kw_Ok_inv in Ha as [-> ->].
  inv_bind H. apply dict_kw_Ok_inv in Ha as [-> ->].
  inv_bind H. unfold insert1 in Ha. destruct (insert_ok _ _ _ _); [|discriminate].
  injection Ha as _ <-.
  match type of H with ?m ?s0 = _ =>
    assert (preserves (appends (λ _, True)) m) as Hrest
  end.
  { apply preserves_bind; [apply _|by apply insert_notes_appends|]. intros _.
    apply bind_dict_kw_preserves; [apply _|]. intros _. by apply insert1_appends. }
  match type of H with ?m ?s0 = _ => specialize (Hrest s0) end.
  rewrite H in Hrest. destruct Hrest as (new & Hcat & _). simpl in Hcat.
  eexists. split.
  - rewrite Hcat. apply elem_of_app. left. apply elem_of_app. right. left.
  - rewrite <- !(assoc_L (∪)). apply lookup_union_Some_l, lookup_singleton_eq.
Qed.

Lemma behavior_dir_bound lv :
  ok lv →
  Session.behavior_dir
    (if rel_bool (restrict task {[ "task_controller_hardware" := VStr "Speedgoat" ]})
     then Session.Locals (Some "speedgoat") (Session.ephys_dir lv) else lv)
  = Pass.behavior_dir_of task.
Proof.
  intros [Hb _]. unfold Pass.behavior_dir_of in *.
  destruct (rel_bool _); [done|]. by destruct Hb.
Qed.

Lemma ephys_dir_bound lv hw b :
  ok lv → nk !! "hardware" = Some hw →
  Session.ephys_dir
    (if decide (hw = VStr "Cerebus")
     then Session.Locals b (Some "blackrock") else lv)
  = Pass.ephys_dir_of hw.
Proof.
  intros [_ He] Hhw. unfold Pass.ephys_dir_of in *.
  destruct (decide _) as [->|Hne]; [done|].
  destruct He as [He|(hw' & Hhw' & He)]; [done|].
  rewrite He. assert (hw' = hw) as -> by congruence. by rewrite decide_False.
Qed.

Lemma ok_after_behavior lv :
  ok lv →
  ok (if rel_bool (restrict task {[ "task_controller_hardware" := VStr "Speedgoat" ]})
      then Session.Locals (Some "speedgoat") (Session.ephys_dir lv) else lv).
Proof.
  intros Hlv. pose proof (behavior_dir_bound lv Hlv) as Hb.
  destruct Hlv as [? He]. split; [by right|].
  by destruct (rel_bool _).
Qed.

Lemma ok_after_ephys lv hw b :
  ok lv → b = None ∨ b = Pass.behavior_dir_of task → nk !! "hardware" = Some hw →
  ok (if decide (hw = VStr "Cerebus")
      then Session.Locals b (Some "blackrock") else lv).
Proof.
  intros Hlv Hb Hhw. pose proof (ephys_dir_bound lv hw b Hlv Hhw) as He.
  destruct Hlv as [Hb' ?]. split; [by destruct (decide _)|].
  right. by exists hw.
Qed.

(** A pass that returns either ended in one of its [except] clauses or
    recorded the session. *)
Lemma step_Ok date lv st lv' st' :
  ok lv → step date lv st = (Ok lv', st') →
  ok lv' ∧
  (skipped date
   ∨ ∃ r, (TSession, r) ∈ catalog st' ∧ r !! "session_date" = Some (VStr date)).
Proof.
  intros Hlv H. unfold step, Session.ingest_date in H.
  inv_bind H. rename a into files. unfold os_listdir, from_opt, lift in Ha.
  destruct (listdir E _) as [files'|] eqn:Hls; [|discriminate].
  injection Ha as -> <-.
  pose proof (behavior_dir_bound lv Hlv) as Hb.
  pose proof (ok_after_behavior lv Hlv) as Hlv1.
  set (lv1 := if rel_bool _ then _ else lv) in *.
  unfold try_stop at 1, next_filter_eq at 1, lift at 1 in H. rewrite Hb in H.
  destruct (first_equal "behavior_dir" _ files) as [x|e] eqn:H1.
  2:{ destruct e; try discriminate.
      unfold mbind, M_bind, print in H. injection H as <- <-.
      split; [done|]. left. exists files. split; [done|]. by left. }
  inv_bind H. rename a into hw. unfold getitem, from_opt, lift in Ha.
  destruct (nk !! "hardware") as [hw'|] eqn:Hhw; [|discriminate].
  injection Ha as -> <-. cbv beta zeta in H.
  pose proof (ephys_dir_bound lv1 hw (Pass.behavior_dir_of task) Hlv1 Hhw) as He.
  pose proof (ok_after_ephys lv1 hw _ Hlv1 (or_intror eq_refl) Hhw) as Hlv2.
  set (lv2 := if decide _ then _ else lv1) in *.
  unfold try_stop, next_filter_eq at 1, lift at 1 in H. rewrite He in H.
  destruct (first_equal "ephys_dir" _ files) as [y|e] eqn:H2.
  2:{ destruct e; try discriminate.
      unfold mbind, M_bind, print in H. injection H as <- <-.
      split; [done|]. left. exists files. split; [done|]. right. eauto. }
  inv_bind H. injection H as <- <-. destruct a.
  split; [done|]. right. by eapply insert_session_Ok.
Qed.

(** A pass over a skipped date prints a line and changes nothing else. *)
Lemma step_skipped date lv st :
  ok lv → skipped date →
  ∃ lv' line,
    step date lv st
      = (Ok lv', State (catalog st) (stdout st ++ [line]) (handles st))
    ∧ ok lv'.
Proof.
  intros Hlv (files & Hls & Hcase). unfold step, Session.ingest_date.
  unfold os_listdir, from_opt. rewrite Hls.
  unfold mbind at 1, M_bind at 1, lift at 1, opt_result. cbv beta iota.
  pose proof (behavior_dir_bound lv Hlv) as Hb.
  pose proof (ok_after_behavior lv Hlv) as Hlv1.
  set (lv1 := if rel_bool _ then _ else lv) in *.
  unfold try_stop at 1, next_filter_eq at 1, lift at 1. rewrite Hb.
  destruct Hcase as [H1 | (x & hw & H1 & Hhw & H2)]; rewrite H1.
  { eexists _, _. split; [reflexivity|done]. }
  unfold getitem, from_opt. rewrite Hhw.
  unfold mbind at 1, M_bind at 1, lift at 1, opt_result. cbv beta iota.
  pose proof (ephys_dir_bound lv1 hw (Pass.behavior_dir_of task) Hlv1 Hhw) as He.
  pose proof (ok_after_ephys lv1 hw _ Hlv1 (or_intror eq_refl) Hhw) as Hlv2.
  set (lv2 := if decide _ then _ else lv1) in *.
  unfold try_stop, next_filter_eq, lift. rewrite He, H2.
  eexists _, _. split; [reflexivity|done].
Qed.

(** After a loop that returned, every date was skipped or has a row. *)
Lemma loop_Ok dates lv st lv' st' :
  ok lv → for_each step dates lv st = (Ok lv', st') →
  ∀ d, d ∈ dates →
    skipped d
    ∨ ∃ r, (TSession, r) ∈ catalog st' ∧ r !! "session_date" = Some (VStr d).
Proof.
  revert lv st. induction dates as [|d0 dates IH]; intros lv st Hlv H d Hd.
  { by apply elem_of_nil in Hd. }
  simpl in H. inv_bind H.
  destruct (step_Ok _ _ _ _ _ Hlv Ha) as [Hlv1 Hcase].
  apply elem_of_cons in Hd as [->|Hd]; [|by eapply IH].
  destruct Hcase as [?|(r & Hr & Hdate)]; [by left|right].
  exists r. split; [|done].
  pose proof (preserves_for_each (appends (λ _, True)) step dates a
     (λ x l, ingest_date_appends E (λ _, True) (λ _, I) (λ _, I) (λ _ _ _, I)
               task mk rk tk nk raw x l) s) as (new & Hcat & _).
  rewrite H in Hcat. simpl in Hcat. rewrite Hcat. apply elem_of_app. by left.
Qed.

(** A loop over skipped dates returns and leaves the catalog as it was. *)
Lemma loop_skipped dates lv st :
  ok lv → Forall skipped dates →
  ∃ lv' st', for_each step dates lv st = (Ok lv', st') ∧ catalog st' = catalog st.
Proof.
  intros Hlv Hall. revert lv st Hlv.
  induction Hall as [|d dates Hd _ IH]; intros lv st Hlv; simpl.
  { by eexists _, _. }
  destruct (step_skipped d lv st Hlv Hd) as (lv1 & line & Hstep & Hlv1).
  rewrite (bind_Ok _ _ _ _ _ Hstep).
  destruct (IH lv1 (State (catalog st) (stdout st ++ [line]) (handles st)) Hlv1)
    as (lv' & st' & Hrun & Hcat).
  by exists lv', st'.
Qed.

End Passes.

(** ** Running the ingestor twice (claim C3) *)

Lemma stateless_run {A} (m : M A) st a st' :
  stateless m → m st = (Ok a, st') → st' = st ∧ ∀ st2, m st2 = (Ok a, st2).
Proof.
  intros [r Hr] H. rewrite Hr in H. injection H as -> <-. split; [done|]. apply Hr.
Qed.

Lemma default_or_given_nsp nsp st :
  from_option mret Session.default_nsp nsp st
  = (Ok (from_option id
           (restrict (table_rel THardware (catalog st))
                     {[ "hardware" := VStr "Cerebus" ]}) nsp), st).
Proof. by destruct nsp. Qed.

(** C3, as the code has it: a candidate date is left out exactly when the
    table holds a row with that date, whichever subject the row is of;
    consequently, after a run that returned, a second run on the same
    tree returns as well and adds no row. *)
Theorem C3_excluded_by_date_and_idempotent (E : env) (monkey rig task : query)
    (dates : option (list string)) (nsp : option query) (st st1 : state) :
  (∀ (candidates : list string) d,
     d ∈ Session.not_in_table (table_rel TSession (catalog st)) candidates
     ↔ d ∈ candidates
       ∧ ¬ ∃ r, r ∈ rows_of TSession (catalog st)
                ∧ r !! "session_date" = Some (VStr d))
  ∧ (Session.populate E monkey rig task dates nsp st = (Ok (), st1) →
     ∃ st2, Session.populate E monkey rig task dates nsp st1 = (Ok (), st2)
            ∧ catalog st2 = catalog st1).
Proof.
  split.
  { intros candidates d. unfold Session.not_in_table.
    rewrite list_elem_of_filter, in_table_false_spec. tauto. }
  intros H.
  (* what the first run added *)
  pose proof (populate_appends E (λ p, p.1 ≠ THardware)
                ltac:(done) ltac:(done) ltac:(done) monkey rig task dates nsp st)
    as (new & Hcat & Hnew).
  rewrite H in Hcat. simpl in Hcat.
  assert (rows_of THardware (catalog st1) = rows_of THardware (catalog st)) as Hhw.
  { rewrite Hcat, rows_of_app, (rows_of_other THardware new), app_nil_r; [done|].
    done. }
  (* the first run, step by step *)
  unfold Session.populate in H. inv_bind H. rename a into nsp0.
  rewrite default_or_given_nsp in Ha. injection Ha as <- <-.
  inv_bind H. rename a into inp.
  apply (stateless_run _ _ _ _ (stateless_check_inputs _ _ _ _ _)) in Ha
    as [-> Hcheck].
  inv_bind H. rename a into ds. unfold Session.scan in Ha.
  inv_bind Ha. rename a into listing. unfold os_listdir, from_opt, lift in Ha0.
  destruct (listdir E (Session.raw_path inp)) as [listing'|] eqn:Hls; [|discriminate].
  injection Ha0 as -> <-. inv_bind Ha. injection Ha0 as <- <-.
  injection Ha as <- <-.
  inv_bind H. injection H as <-.
  assert (Pass.locals_ok task (Session.nsp_key inp) (Session.Locals None None))
    as Hlv0 by (split; by left).
  pose proof (loop_Ok E task _ _ _ _ _ _ _ _ _ _ Hlv0 Ha) as Hdone.
  (* the second run *)
  unfold Session.populate.
  unfold mbind at 1, M_bind at 1. rewrite default_or_given_nsp.
  unfold table_rel at 1. rewrite Hhw. fold (table_rel THardware (catalog st)).
  unfold mbind at 1, M_bind at 1. rewrite Hcheck.
  unfold mbind at 1, M_bind at 1. rewrite (scan_eq _ _ _ _ _ Hls).
  destruct (loop_skipped E task (Session.monkey_key inp) (Session.rig_key inp)
              (Session.task_key inp) (Session.nsp_key inp) (Session.raw_path inp)
              (Session.session_dates (table_rel TSession (catalog s))
                 (default [] dates) listing)
              (Session.Locals None None) s)
    as (lv2 & st2 & Hrun & Hsame).
  { exact Hlv0. }
  { apply Forall_forall. intros d Hd.
    unfold Session.session_dates, Session.not_in_table in Hd.
    apply list_elem_of_filter in Hd as [Hnot Hsel].
    apply in_table_false_spec in Hnot.
    destruct (Hdone d) as [?|(r & Hr & Hdate)]; [|done|].
    - unfold Session.session_dates, Session.not_in_table.
      apply list_elem_of_filter. split; [|done].
      apply in_table_false_spec. intros (r & Hr & Hdate). apply Hnot.
      exists r. split; [|done]. rewrite Hcat, rows_of_app. apply elem_of_app. by left.
    - exfalso. apply Hnot. exists r. split; [|done]. by apply elem_of_rows_of. }
  exists st2. unfold mbind, M_bind. rewrite Hrun. done.
Qed.

Lemma C3_witness :
  let once := (Session.populate (Sample.world Sample.strict) Sample.monkey Sample.rig
                 Sample.task None None Sample.fresh).2 in
  ∃ twice,
    Session.populate (Sample.world Sample.strict) Sample.monkey Sample.rig
      Sample.task None None once = (Ok (), twice)
    ∧ catalog twice = catalog once.
Proof.
  cbv zeta.
  apply (C3_excluded_by_date_and_idempotent (Sample.world Sample.strict)
           Sample.monkey Sample.rig Sample.task None None Sample.fresh).
  vm_compute. reflexivity.
Defined.

(** C3 as the claim has it fails when the table holds a session of another
    subject on the date: no row of that date is of the subject being
    populated, and still the date is left out, so that the run records no
    session of this subject for it. *)
Lemma C3_counterexample :
  ¬ ("2021-01-01" ∉ Session.not_in_table
                      (table_rel TSession (catalog Sample.shared)) ["2021-01-01"]
     ↔ ∃ r, r ∈ rows_of TSession (catalog Sample.shared)
            ∧ r !! "session_date" = Some (VStr "2021-01-01")
            ∧ r !! "monkey" = Some (VStr "Cousteau")).
Proof.
  intros [H _]. destruct H as (r & Hr & _ & Hm).
  - assert (Session.not_in_table (table_rel TSession (catalog Sample.shared))
              ["2021-01-01"] = []) as -> by (vm_compute; reflexivity).
    apply not_elem_of_nil.
  - assert (rows_of TSession (catalog Sample.shared) = [Sample.darwin_day1]) as Hrows
      by (vm_compute; reflexivity).
    rewrite Hrows in Hr. apply list_elem_of_singleton in Hr as ->.
    vm_compute in Hm. discriminate Hm.
Qed.

(** The run on that catalog: the first day stays with the other subject. *)
Lemma populate_skips_shared_date :
  (λ r : row, (r !! "session_date", r !! "monkey"))
    <$> rows_of TSession
          (catalog (Session.populate (Sample.world Sample.strict) Sample.monkey
                      Sample.rig Sample.task None None Sample.shared).2)
  = [ (Some (VStr "2021-01-01"), Some (VStr "Darwin"));
      (Some (VStr "2021-01-04"), Some (VStr "Cousteau")) ].
Proof. vm_compute. reflexivity. Qed.

(* ===================================================================== *)
(** * Further properties of the module                                    *)
(* ===================================================================== *)

(** ** The file-name patterns *)

Lemma star_ge c b s k : k b s = true → Re.star c b s k = true.
Proof. intros H. destruct s; simpl; by rewrite H. Qed.

Lemma star_inv c b s k :
  Re.star c b s k = true → ∃ u v b', s = u +:+ v ∧ k b' v = true.
Proof.
  revert b. induction s as [|a s IH]; intros b; simpl.
  - rewrite orb_false_r. intros H. by exists "", "", b.
  - intros [H | H]%orb_prop.
    + by exists "", (String a s), b.
    + apply andb_prop in H as [_ H]. apply IH in H as (u & v & b' & -> & H).
      by exists (String a u), v, b'.
Qed.

Lemma star_bol_irrelevant c k :
  (∀ b b' s, k b s = k b' s) → ∀ b b' s, Re.star c b s k = Re.star c b' s k.
Proof. intros Hk b b' s. destruct s; simpl; by rewrite (Hk b b'). Qed.

(** A pattern without anchors matches the same at every position. *)
Lemma rmatch_bol_irrelevant r k :
  anchor_free r = true → (∀ b b' s, k b s = k b' s) →
  ∀ b b' s, Re.rmatch r b s k = Re.rmatch r b' s k.
Proof.
  revert k. induction r as [|c|c|r1 IH1 r2 IH2|r1 IH1 r2 IH2| |]; intros k Hr Hk b b' s;
    simpl in *; try discriminate.
  - apply Hk.
  - done.
  - by apply star_bol_irrelevant.
  - apply andb_prop in Hr as [H1 H2]. apply IH1; [done|].
    intros b1 b2 s'. by apply IH2.
  - apply andb_prop in Hr as [H1 H2].
    by rewrite (IH1 k H1 Hk b b'), (IH2 k H2 Hk b b').
Qed.

(** Under [re.search] a leading [.*] changes nothing. *)
Lemma search_dotstar r s :
  anchor_free r = true →
  Re.search (Re.RSeq Re.dotstar r) s = true ↔ Re.search r s = true.
Proof.
  intros Hr. unfold Re.search. rewrite !search_from_spec. split.
  - intros (pre & post & -> & H). simpl in H.
    apply star_inv in H as (u & v & b' & -> & H).
    exists (pre +:+ u), v. split; [by rewrite str_app_assoc|].
    by rewrite (rmatch_bol_irrelevant r Re.accept Hr (λ _ _ _, eq_refl) _ b').
  - intros (pre & post & -> & H). exists pre, post. split; [done|].
    simpl. by apply star_ge.
Qed.

Lemma rmatch_lit w b s k :
  Re.rmatch (Re.lit w) b s k = true ↔
  ∃ rest, s = w +:+ rest ∧ k (b && bool_decide (w = "")) rest = true.
Proof.
  revert b s. induction w as [|a w IH]; intros b s; simpl.
  - rewrite andb_true_r. split; [by exists s|]. by intros (rest & -> & H).
  - rewrite andb_false_r. destruct s as [|a' s]; simpl.
    + split; [done|]. by intros (rest & ? & _).
    + rewrite andb_true_iff, IH, Ascii.eqb_eq. split.
      * intros (-> & rest & -> & H). exists rest. split; [done|].
        by rewrite andb_false_l in H.
      * intros (rest & Hs & H). rewrite str_app_cons in Hs. injection Hs as -> ->.
        split; [done|]. exists rest. by rewrite andb_false_l.
Qed.

Lemma search_literal w s :
  Re.search (Re.RSeq Re.dotstar (Re.lit w)) s = true ↔ contains w s.
Proof.
  rewrite search_dotstar.
  - unfold Re.search, contains. rewrite search_from_spec. split.
    + intros (pre & post & -> & H). apply rmatch_lit in H as (rest & -> & _).
      by exists pre, rest.
    + intros (pre & post & ->). exists pre, (w +:+ post). split; [done|].
      apply rmatch_lit. by exists post.
  - induction w; simpl; auto.
Qed.

(** X1: the summary file of a session is any entry of the speedgoat
    listing that has [.summary] somewhere in its name, not only at its
    end. *)
Theorem X1_summary_test_is_containment (f : string) :
  Re.search Re.summary_re f = true ↔ contains ".summary" f.
Proof. apply search_literal. Qed.

(** X2: the notes file of a session is any entry of its listing that has
    [notes.txt] somewhere in its name. *)
Theorem X2_notes_test_is_containment (f : string) :
  Re.search Re.notes_re f = true ↔ contains "notes.txt" f.
Proof. apply search_literal. Qed.

Lemma rmatch_nsx_tail b s :
  Re.rmatch nsx_tail b s Re.accept = true ↔
  ∃ c n rest, Re.is_digit c = true ∧ Re.is_digit n = true
    ∧ s = "_00" +:+ String c (".ns" +:+ String n rest).
Proof.
  split.
  - destruct s as [|c1 [|c2 [|c3 [|c4 [|c5 [|c6 [|c7 [|c8 rest]]]]]]]];
      cbn -[Re.is_digit Ascii.eqb]; rewrite ?andb_false_r; try discriminate.
    intros H.
    repeat match goal with
           | H : _ && _ = true |- _ => apply andb_prop in H as [? ?]
           end.
    repeat match goal with
           | H : Ascii.eqb _ _ = true |- _ => apply Ascii.eqb_eq in H; subst
           end.
    by exists c4, c8, rest.
  - intros (c & n & rest & Hc & Hn & ->).
    change ("_00" +:+ String c (".ns" +:+ String n rest))
      with (String "_" (String "0" (String "0" (String c
              (String "." (String "n" (String "s" (String n rest)))))))).
    cbn -[Re.is_digit]. by rewrite Hc, Hn.
Qed.

Lemma rmatch_nsx_body b s :
  Re.rmatch
    (Re.RSeq (Re.RAlt (Re.lit "emg") (Re.RAlt (Re.lit "neu") (Re.lit "neu_emg")))
             nsx_tail) b s Re.accept = true ↔
  ∃ kind c n rest,
    (kind = "emg" ∨ kind = "neu" ∨ kind = "neu_emg")
    ∧ Re.is_digit c = true ∧ Re.is_digit n = true
    ∧ s = kind +:+ "_00" +:+ String c (".ns" +:+ String n rest).
Proof.
  change (Re.rmatch (Re.RSeq (Re.RAlt ?a (Re.RAlt ?n ?ne)) ?t) b s Re.accept)
    with (Re.rmatch a b s (λ b s', Re.rmatch t b s' Re.accept)
          || (Re.rmatch n b s (λ b s', Re.rmatch t b s' Re.accept)
              || Re.rmatch ne b s (λ b s', Re.rmatch t b s' Re.accept))).
  rewrite !orb_true_iff, !rmatch_lit. split.
  - intros [H|[H|H]]; destruct H as (rest & -> & H);
      apply rmatch_nsx_tail in H as (c & n & rest' & Hc & Hn & ->);
      eexists _, c, n, rest'; (split; [|split; [done|split; [done|reflexivity]]]);
      auto.
  - intros (kind & c & n & rest & Hk & Hc & Hn & ->).
    destruct Hk as [->|[->| ->]]; [left|right; left|right; right];
      (eexists; split; [reflexivity|]); apply rmatch_nsx_tail;
      by exists c, n, rest.
Qed.

(** X3: among the entries with ASCII names, the vendor files of a session
    are those of the blackrock listing that have, somewhere in their
    name, [emg] or [neu], then [_00], a digit, [.ns] and a digit: the
    files numbered 000 to 009. *)
Theorem X3_nsx_files_are_the_first_ten (f : string) :
  Shape.ascii_only f = true →
  (Re.search Re.nsx_re f = true ↔
   ∃ pre w post, f = pre +:+ w +:+ post ∧ nsx_shape w).
Proof.
  intros _.
  change Re.nsx_re with
    (Re.RSeq Re.dotstar
       (Re.RSeq (Re.RAlt (Re.lit "emg") (Re.RAlt (Re.lit "neu") (Re.lit "neu_emg")))
                nsx_tail)).
  rewrite search_dotstar by reflexivity.
  unfold Re.search. rewrite search_from_spec. split.
  - intros (pre & post & -> & H).
    apply rmatch_nsx_body in H as (kind & c & n & rest & Hk & Hc & Hn & ->).
    destruct Hk as [->|[->| ->]].
    + exists pre, ("emg" +:+ "_00" +:+ String c (".ns" +:+ String n "")), rest.
      split; [done|]. exists "emg", c, n. auto.
    + exists pre, ("neu" +:+ "_00" +:+ String c (".ns" +:+ String n "")), rest.
      split; [done|]. exists "neu", c, n. auto.
    + exists (pre +:+ "neu_"),
        ("emg" +:+ "_00" +:+ String c (".ns" +:+ String n "")), rest.
      split; [by rewrite str_app_assoc|]. exists "emg", c, n. auto.
  - intros (pre & w & post & -> & kind & c & n & Hk & Hc & Hn & ->).
    exists pre, ((kind +:+ "_00" +:+ String c (".ns" +:+ String n "")) +:+ post).
    split; [done|]. apply rmatch_nsx_body. exists kind, c, n, post.
    split; [tauto|]. split; [done|]. split; [done|].
    destruct Hk as [-> | ->]; reflexivity.
Qed.

Lemma X3_witness :
  ∃ pre w post, "foo_neu_emg_001.ns3" = pre +:+ w +:+ post ∧ nsx_shape w.
Proof.
  apply (X3_nsx_files_are_the_first_ten "foo_neu_emg_001.ns3" eq_refl).
  reflexivity.
Defined.

Example nsx_tenth_file_is_left_out :
  EphysRecording.nsx_files ["foo_neu_009.ns5"; "foo_neu_010.ns5"; "foo_neu_emg_001.ns3"]
  = ["foo_neu_009.ns5"; "foo_neu_emg_001.ns3"].
Proof. reflexivity. Qed.

(** ** The rows of an ephys session *)





Ltac nothing_added H :=
  injection H as <- <-; exists []; rewrite app_nil_r; split; [done|];
  left; split; [done|]; intros ? ?; discriminate.

(** What a pass over a file adds, whether it returns or raises: nothing,
    or the file's row followed by channel rows. *)
Lemma ingest_file_adds E i pth key st res st' :
  EphysRecording.ingest_file E i pth key st = (res, st') →
  ∃ new, catalog st' = catalog st ++ new
    ∧ (new = [] ∧ (∀ key', res ≠ Ok key')
       ∨ ∃ r more, new = (TEphysRecording, r) :: more
           ∧ Forall (λ p, p.1 = TEphysChannel) more
           ∧ r !! "ephys_file_id" = Some (VInt (Z.of_nat i))
           ∧ {[ "ephys_file_id"; "ephys_file_path"; "ephys_sample_rate";
                "ephys_duration" ]} ⊆ dom r).
Proof.
  intros H. unfold EphysRecording.ingest_file in H.
  unfold mbind at 1, M_bind at 1, nsx_open in H.
  destruct (nsx_read E pth) as [f|]; simpl in H; [|nothing_added H].
  unfold mbind at 1, M_bind at 1, from_opt, lift in H.
  destruct (head (extended_headers f)) as [first|]; simpl in H; [|nothing_added H].
  unfold mbind at 1, M_bind at 1 in H.
  destruct (getdata f (ElectrodeID first)) as [nsx_data|]; simpl in H;
    [|nothing_added H].
  unfold mbind at 1, M_bind at 1, insert1 at 1 in H. simpl in H.
  destruct (insert_ok E TEphysRecording _ (catalog st)); simpl in H;
    [|nothing_added H].
  unfold mbind at 1, M_bind at 1 in H.
  match type of H with context [for_enum ?b ?n ?l ?k ?s] =>
    pose proof (preserves_for_enum (appends (λ p, p.1 = TEphysChannel)) b n l k
                  (insert_channel_appends E _) s) as (more & Hc & Hmore);
    destruct (for_enum b n l k s) as [[key'|e] st2]
  end; simpl in Hc.
  - unfold mbind, M_bind, nsx_close in H. simpl in H. injection H as <- <-.
    eexists. simpl. rewrite Hc, <- app_assoc.
    split; [reflexivity|]. right. eexists _, more. split; [reflexivity|].
    split; [done|]. split; [by rewrite !lookup_insert_ne, lookup_insert_eq by done|].
    rewrite !dom_insert. set_solver.
  - injection H as <- <-. eexists. rewrite Hc, <- app_assoc.
    split; [reflexivity|]. right. eexists _, more. split; [reflexivity|].
    split; [done|]. split; [by rewrite !lookup_insert_ne, lookup_insert_eq by done|].
    rewrite !dom_insert. set_solver.
Qed.

(** X5: the rows that the loop over the vendor files adds to
    EphysRecording are numbered from zero in the order of the listing
    (from [i] for the tail of a listing), one per file and without a gap;
    a loop that raises has recorded a first part of the files, and a loop
    that returns all of them. *)
Theorem X5_file_rows_follow_the_listing (E : env) (i : nat) (paths : list string)
    (key : row) (st : state) :
  let out := for_enum (EphysRecording.ingest_file E) i paths key st in
  ∃ rows,
    rows_of TEphysRecording (catalog out.2)
      = rows_of TEphysRecording (catalog st) ++ rows
    ∧ length rows ≤ length paths
    ∧ (∀ j r, rows !! j = Some r →
              r !! "ephys_file_id" = Some (VInt (Z.of_nat (i + j))))
    ∧ ∀ key', out.1 = Ok key' → length rows = length paths.
Proof.
  cbv zeta. revert i key st. induction paths as [|pth paths IH]; intros i key st.
  - exists []. simpl. rewrite app_nil_r. split; [done|]. split; [done|].
    split; [by intros j r [=]|done].
  - simpl. unfold mbind, M_bind.
    destruct (EphysRecording.ingest_file E i pth key st) as [[key1|e] st1] eqn:Hrun;
      destruct (ingest_file_adds E i pth key st _ _ Hrun) as (new & Hcat & Hnew).
    + destruct Hnew as [[_ Habs]|(r & more & -> & Hmore & Hid & _)];
        [by destruct (Habs key1)|].
      destruct (IH (S i) key1 st1) as (rows & Hrows & Hlen & Hids & Hall).
      exists (r :: rows). split; [|split; [simpl; lia|split]].
      * rewrite Hrows, Hcat, rows_of_app, rows_of_cons_same, (rows_of_other _ more),
          <- app_assoc; [done|].
        eapply Forall_impl; [exact Hmore|]. by intros p ->.
      * intros [|j] r' Hj; simpl in Hj.
        -- injection Hj as <-. by rewrite Nat.add_0_r.
        -- rewrite Nat.add_succ_r. by apply (Hids j).
      * intros key' Hk. simpl. f_equal. by eapply Hall.
    + simpl. destruct Hnew as [[-> _]|(r & more & -> & Hmore & Hid & _)].
      * exists []. rewrite Hcat, !app_nil_r. split; [done|]. split; [simpl; lia|].
        split; [by intros j r [=]|by intros ? [=]].
      * exists [r]. split; [|split; [simpl; lia|split]].
        -- rewrite Hcat, rows_of_app, rows_of_cons_same, (rows_of_other _ more);
             [done|].
           eapply Forall_impl; [exact Hmore|]. by intros p ->.
        -- intros [|j] r' Hj; simpl in Hj; [|done].
           injection Hj as <-. by rewrite Nat.add_0_r.
        -- by intros ? [=].
Qed.

(** X6: [EphysRecording.make] adds rows to EphysRecording and to its
    Channel part only, whatever its outcome; every EphysRecording row it
    adds has its file id, path, sample rate and duration, and every
    Channel row its index and electrode id. *)
Theorem X6_ephys_make_adds_only_its_rows (E : env) (key : row) (st : state) :
  appends
    (λ p, (p.1 = TEphysRecording
           ∧ {[ "ephys_file_id"; "ephys_file_path"; "ephys_sample_rate";
                "ephys_duration" ]} ⊆ dom p.2)
          ∨ (p.1 = TEphysChannel ∧ {[ "channel_index"; "channel_id" ]} ⊆ dom p.2))
    st (EphysRecording.make E key st).2.
Proof.
  set (P := λ p : table * row, _ ∨ _).
  assert (∀ i pth k, preserves (appends P) (EphysRecording.ingest_file E i pth k))
    as Hfile.
  { intros i pth k s. unfold EphysRecording.ingest_file.
    apply preserves_bind; [apply _| |intros f].
    { intros s0. unfold nsx_open. destruct (nsx_read E pth); simpl;
        exists []; by rewrite app_nil_r. }
    apply preserves_bind; [apply _|apply preserves_lift, _|intros first].
    apply preserves_bind; [apply _|apply preserves_lift, _|intros data].
    apply preserves_bind; [apply _| |intros _].
    { apply insert1_appends. left. split; [done|]. simpl.
      rewrite !dom_insert. set_solver. }
    apply preserves_bind; [apply _| |intros k'].
    { apply preserves_for_enum; [apply _|]. intros j elec k'.
      unfold EphysRecording.insert_channel.
      apply preserves_bind; [apply _| |intros _; apply preserves_ret, _].
      apply insert1_appends. right. split; [done|]. apply channel_row_dom. }
    apply preserves_bind; [apply _| |intros _; apply preserves_ret, _].
    intros s0. exists []. simpl. by rewrite app_nil_r. }
  unfold EphysRecording.make.
  apply preserves_bind; [apply _|apply ephys_resolve_reads, _|intros [raw nsp]].
  unfold EphysRecording.ingest. destruct (decide _); [|apply preserves_ret, _].
  apply preserves_bind; [apply _|apply preserves_lift, _|intros files].
  apply preserves_bind; [apply _| |intros _; apply preserves_ret, _].
  apply preserves_for_enum; [apply _|]. intros. apply Hfile.
Qed.

(** ** What [BehaviorRecording.make] leaves behind *)

Lemma reads_run {A} (m : M A) st : preserves eq m → (m st).2 = st.
Proof. intros H. symmetry. apply H. Qed.

Lemma behavior_make_outcome E key st res st' :
  BehaviorRecording.make E key st = (res, st') →
  ((∃ e, res = Raise e) ∧ st' = st)
  ∨ ∃ r, res = Ok ()
         ∧ st' = State (catalog st ++ [(TBehaviorRecording, r)]) (stdout st)
                   (handles st)
         ∧ r !! "behavior_sample_rate" = Some (VInt 1000)
         ∧ ∀ k, k ≠ "behavior_sample_rate" → k ≠ "behavior_summary_file_path" →
                r !! k = key !! k.
Proof.
  intros H. unfold BehaviorRecording.make in H.
  pose proof (reads_run _ st (behavior_resolve_reads eq E key)) as Hst.
  unfold mbind at 1, M_bind at 1 in H.
  destruct (BehaviorRecording.resolve E key st) as [[[raw tch]|e] st1];
    simpl in Hst; subst st1; [|injection H as <- <-; left; eauto].
  unfold BehaviorRecording.record in H.
  assert (∀ k0 : row,
    (∀ k, k ≠ "behavior_sample_rate" → k ≠ "behavior_summary_file_path" →
          k0 !! k = key !! k) →
    insert1 E TBehaviorRecording (<[ "behavior_sample_rate" := VInt 1000 ]> k0) st
      = (res, st') →
    ((∃ e, res = Raise e) ∧ st' = st)
    ∨ ∃ r, res = Ok ()
        ∧ st' = State (catalog st ++ [(TBehaviorRecording, r)]) (stdout st) (handles st)
        ∧ r !! "behavior_sample_rate" = Some (VInt 1000)
        ∧ ∀ k, k ≠ "behavior_sample_rate" → k ≠ "behavior_summary_file_path" →
               r !! k = key !! k) as Hins.
  { intros k0 Hk0 Hi. unfold insert1 in Hi. destruct (insert_ok _ _ _ _).
    - injection Hi as <- <-. right. eexists. split; [done|]. split; [done|].
      split; [apply lookup_insert_eq|]. intros k ??.
      rewrite lookup_insert_ne by done. by apply Hk0.
    - injection Hi as <- <-. left. eauto. }
  destruct (decide (tch = VStr "Speedgoat")).
  - unfold os_listdir, from_opt, next_filter in H.
    unfold mbind at 1 2, M_bind at 1 2, lift at 1, opt_result at 1 in H.
    destruct (listdir E _) as [files|]; [|injection H as <- <-; left; eauto].
    unfold mbind at 1, M_bind at 1, lift at 1 in H.
    destruct (first_match _ files) as [f|e0]; [|injection H as <- <-; left; eauto].
    unfold mbind, M_bind, mret, M_ret in H. cbv beta iota zeta in H.
    eapply Hins; [|exact H]. intros k ??. by rewrite lookup_insert_ne.
  - unfold mbind, M_bind, mret, M_ret in H. cbv beta iota zeta in H.
    eapply Hins; [|exact H]. done.
Qed.

(** X7: [BehaviorRecording.make] either raises and leaves the state as it
    was, or returns after adding exactly one row, to BehaviorRecording:
    the key it was given with the sample rate 1000 and, for a Speedgoat
    session, the path of the summary file.  It prints nothing. *)
Theorem X7_behavior_make_adds_one_row_or_nothing (E : env) (key : row) (st : state) :
  let out := BehaviorRecording.make E key st in
  ((∃ e, out.1 = Raise e) ∧ out.2 = st)
  ∨ ∃ r, out.1 = Ok ()
         ∧ out.2 = State (catalog st ++ [(TBehaviorRecording, r)]) (stdout st)
                     (handles st)
         ∧ r !! "behavior_sample_rate" = Some (VInt 1000)
         ∧ ∀ k, k ≠ "behavior_sample_rate" → k ≠ "behavior_summary_file_path" →
                r !! k = key !! k.
Proof.
  cbv zeta. destruct (BehaviorRecording.make E key st) as [res st'] eqn:H.
  by apply behavior_make_outcome in H.
Qed.

(** X8: on a key for which the Session table has no row, or more than one
    (a key with a date only, on a day with two subjects), both [make]
    routines raise the error of [fetch1] and leave the state as it was. *)
Theorem X8_make_needs_one_session (E : env) (key : row) (st : state) :
  length (filter (satisfies (heading TSession) key) (rows_of TSession (catalog st))) ≠ 1 →
  BehaviorRecording.make E key st = (Raise DataJointError, st)
  ∧ EphysRecording.make E key st = (Raise DataJointError, st).
Proof.
  intros Hn.
  assert (fetch1 (restrict (table_rel TSession (catalog st)) key) st
          = (Raise DataJointError, st)) as Hf.
  { unfold fetch1, restrict. simpl.
    destruct (filter _ (rows_of TSession (catalog st))) as [|r [|r' l]]; try done. }
  split.
  - unfold BehaviorRecording.make, BehaviorRecording.resolve, get_table,
      mbind, M_bind. by rewrite Hf.
  - unfold EphysRecording.make, EphysRecording.resolve, get_table,
      mbind, M_bind. by rewrite Hf.
Qed.

Lemma X8_witness :
  BehaviorRecording.make (Sample.world Sample.strict)
    {[ "session_date" := VStr "2021-01-02" ]} Sample.populated
    = (Raise DataJointError, Sample.populated)
  ∧ EphysRecording.make (Sample.world Sample.strict)
      {[ "session_date" := VStr "2021-01-02" ]} Sample.populated
    = (Raise DataJointError, Sample.populated).
Proof.
  apply (X8_make_needs_one_session (Sample.world Sample.strict)
           {[ "session_date" := VStr "2021-01-02" ]} Sample.populated).
  vm_compute. discriminate.
Defined.

(** ** What [Session.populate] leaves behind *)

Lemma print_same_handles line : preserves same_handles (print line).
Proof. by intros st. Qed.

Lemma with_open_same_handles {A} E path (body : string → M A) :
  (∀ text, preserves same_handles (body text)) →
  preserves same_handles (with_open E path body).
Proof.
  intros Hb st. unfold with_open. destruct (read_text E path) as [text|]; [|done].
  specialize (Hb text (State (catalog st) (stdout st) (path :: handles st))).
  destruct (body text _) as [res st']. unfold same_handles in *. simpl in *.
  rewrite Hb. apply remove_first_head.
Qed.

Ltac keeps :=
  repeat first
    [ apply preserves_lift; solve [apply _]
    | apply preserves_ret; solve [apply _]
    | apply preserves_get_table; solve [apply _]
    | apply insert1_same_handles
    | apply print_same_handles
    | apply dict_kw_reads; solve [apply _]
    | apply check_inputs_reads; solve [apply _]
    | apply with_open_same_handles; intros ?
    | apply preserves_for_each; [solve [apply _] | intros ? ?]
    | apply preserves_try_stop; [solve [apply _] | | | intros ?]
    | apply preserves_bind; [solve [apply _] | | intros ?] ].

Lemma ingest_date_same_handles E task mk rk tk nk raw date lv :
  preserves same_handles (Session.ingest_date E task mk rk tk nk raw date lv).
Proof.
  unfold Session.ingest_date, Session.insert_session, Session.insert_notes,
    Session.notes_row, os_listdir, getitem, next_filter, next_filter_eq.
  keeps.
Qed.

Lemma populate_same_handles E monkey rig task dates nsp :
  preserves same_handles (Session.populate E monkey rig task dates nsp).
Proof.
  unfold Session.populate.
  apply preserves_bind; [apply _| |intros nsp0].
  { destruct nsp; simpl; [apply preserves_ret, _|].
    unfold Session.default_nsp. keeps. }
  apply preserves_bind; [apply _|apply check_inputs_reads, _|intros inp].
  apply preserves_bind; [apply _| |intros ds].
  { unfold Session.scan, os_listdir. keeps. }
  apply preserves_bind; [apply _| |intros ?; apply preserves_ret, _].
  apply preserves_for_each; [apply _|]. intros. apply ingest_date_same_handles.
Qed.

(** X9: whatever its outcome, [Session.populate] leaves no file open that
    was not open before, and adds rows to Session and to its Notes and
    Hardware parts only: the rows of every other table, and the rows that
    these three had, stay as they were. *)
Theorem X9_populate_closes_files_and_keeps_to_its_tables (E : env)
    (monkey rig task : query) (dates : option (list string)) (nsp : option query)
    (st : state) :
  let out := Session.populate E monkey rig task dates nsp st in
  handles out.2 = handles st
  ∧ ∃ new, catalog out.2 = catalog st ++ new
      ∧ Forall (λ p, p.1 ∈ [TSession; TSessionNotes; TSessionHardware]) new.
Proof.
  cbv zeta. split.
  - apply populate_same_handles.
  - apply populate_appends; intros; simpl; set_solver.
Qed.

(** X10: [Session.populate] called with a monkey, rig or task table of
    other than one row, or with a table of another class in one of these
    places, raises AssertionError before it reads the file system, and
    leaves the state as it was. *)
Theorem X10_populate_checks_its_inputs (E : env) (monkey rig task : query)
    (dates : option (list string)) (nsp : option query) (st : state) :
  rel_len monkey ≠ 1 ∨ rel_len rig ≠ 1 ∨ rel_len task ≠ 1
  ∨ rel_class monkey ≠ Some TMonkey ∨ rel_class rig ≠ Some TRig
  ∨ rel_class task ≠ Some TTask →
  Session.populate E monkey rig task dates nsp st = (Raise AssertionError, st).
Proof.
  intros Hbad. unfold Session.populate.
  unfold mbind at 1, M_bind at 1. rewrite default_or_given_nsp.
  unfold mbind at 1, M_bind at 1.
  assert (∀ q, Session.check_inputs E monkey rig task q st
               = (Raise AssertionError, st)) as Hc; [|by rewrite Hc].
  intros q. unfold Session.check_inputs. simpl.
  unfold mbind, M_bind, assert, mret, M_ret, raise, lift.
  repeat case_bool_decide; try reflexivity.
  exfalso. naive_solver.
Qed.

Lemma X10_witness :
  Session.populate (Sample.world Sample.strict)
    (Query (Some TMonkey) ["monkey"] ["monkey"] []) Sample.rig Sample.task None None
    Sample.fresh
  = (Raise AssertionError, Sample.fresh).
Proof.
  apply (X10_populate_checks_its_inputs (Sample.world Sample.strict)
           (Query (Some TMonkey) ["monkey"] ["monkey"] []) Sample.rig Sample.task
           None None Sample.fresh).
  left. simpl. discriminate.
Defined.

(** ** The date list *)

(** X11: with a date list that is not empty, the session dates are the
    entries of the raw directory that are in the list and have no row yet,
    in lexicographic order: a listed date without directory is passed
    over, and a listed entry is taken whether or not it looks like a
    date. *)
Theorem X11_listed_dates_are_taken_as_they_are (sessions : query)
    (dates listing : list string) :
  dates ≠ [] →
  (∀ d, d ∈ Session.session_dates sessions dates listing
        ↔ d ∈ listing ∧ d ∈ dates ∧ Session.in_table sessions d = false)
  ∧ StronglySorted String.le (Session.session_dates sessions dates listing).
Proof.
  intros Hne. split; [|apply session_dates_sorted].
  intros d. unfold Session.session_dates, Session.not_in_table, Session.select_dates.
  destruct dates as [|d0 dates]; [done|].
  rewrite !list_elem_of_filter, sorted_elem_of. tauto.
Qed.

Lemma X11_witness :
  let listing := ["scratch"; "2021-01-04"; "2021-01-03"; "2021-01-02"; "2021-01-01"] in
  let dates := ["scratch"; "2021-01-09"; "2021-01-02"] in
  "scratch" ∈ Session.session_dates (table_rel TSession []) dates listing
  ∧ "2021-01-09" ∉ Session.session_dates (table_rel TSession []) dates listing.
Proof.
  cbv zeta.
  destruct (X11_listed_dates_are_taken_as_they_are (table_rel TSession [])
              ["scratch"; "2021-01-09"; "2021-01-02"]
              ["scratch"; "2021-01-04"; "2021-01-03"; "2021-01-02"; "2021-01-01"]
              ltac:(discriminate)) as [Hiff _].
  split.
  - apply Hiff. split; [apply list_elem_of_here|]. split; [apply list_elem_of_here|].
    reflexivity.
  - intros [Hin _]%Hiff.
    repeat (apply elem_of_cons in Hin as [Hin|Hin]; [discriminate Hin|]).
    by apply elem_of_nil in Hin.
Defined.

(** ** A task without Speedgoat *)

(** X12: for a task whose controller is not a Speedgoat the local
    [behavior_dir] is never bound: the pass over the first date whose
    directory has an entry raises NameError and ends the run with the state
    as it was, while a date with an empty directory is reported as missing
    its behavior files.  No task of the lookup contents is in this case. *)
Theorem X12_behavior_dir_is_bound_for_speedgoat_only (E : env) (task : query)
    (mk rk tk nk : row) (raw date : string) (st : state) :
  rel_bool (restrict task {[ "task_controller_hardware" := VStr "Speedgoat" ]}) = false →
  let step := Session.ingest_date E task mk rk tk nk raw in
  (∀ f files rest,
     listdir E ((raw +:+ date) +:+ "/") = Some (f :: files) →
     step date (Session.Locals None None) st = (Raise (NameError "behavior_dir"), st)
     ∧ for_each step (date :: rest) (Session.Locals None None) st
       = (Raise (NameError "behavior_dir"), st))
  ∧ (listdir E ((raw +:+ date) +:+ "/") = Some [] →
     step date (Session.Locals None None) st
     = (Ok (Session.Locals None None),
        State (catalog st)
              (stdout st ++ ["Missing behavior files for session " +:+ date])
              (handles st)))
  ∧ ∀ r, r ∈ Task.rows →
      rel_bool (restrict (Query (Some TTask) (heading TTask) (primary_key TTask) [r])
                         {[ "task_controller_hardware" := VStr "Speedgoat" ]}) = true.
Proof.
  intros Hsg step. split; [|split].
  - intros f files rest Hls.
    assert (step date (Session.Locals None None) st
            = (Raise (NameError "behavior_dir"), st)) as Hstep.
    { unfold step, Session.ingest_date, os_listdir, from_opt.
      rewrite Hls, Hsg. reflexivity. }
    split; [done|]. simpl. by rewrite (bind_Raise _ _ _ _ _ Hstep).
  - intros Hls. unfold step, Session.ingest_date, os_listdir, from_opt.
    rewrite Hls, Hsg. reflexivity.
  - intros r Hin. unfold Task.rows, Task.contents in Hin. simpl in Hin.
    repeat (apply elem_of_cons in Hin as [->|Hin]; [vm_compute; reflexivity|]).
    by apply elem_of_nil in Hin.
Qed.

Lemma X12_witness :
  Session.ingest_date (Sample.world Sample.strict)
    (Query (Some TTask) (heading TTask) (primary_key TTask)
       [ <[ "task_controller_hardware" := VStr "Arduino" ]> Sample.pacman ])
    Sample.cousteau Sample.jumanji
    {[ "task" := VStr "pacman"; "task_version" := VStr "1.0" ]}
    {[ "hardware" := VStr "Cerebus" ]} Sample.raw "2021-01-01"
    (Session.Locals None None) Sample.fresh
  = (Raise (NameError "behavior_dir"), Sample.fresh).
Proof.
  assert (rel_bool (restrict
            (Query (Some TTask) (heading TTask) (primary_key TTask)
               [ <[ "task_controller_hardware" := VStr "Arduino" ]> Sample.pacman ])
            {[ "task_controller_hardware" := VStr "Speedgoat" ]}) = false) as Hsg.
  { vm_compute. reflexivity. }
  assert (listdir (Sample.world Sample.strict) ((Sample.raw +:+ "2021-01-01") +:+ "/")
          = Some ["speedgoat"; "blackrock"; "b_notes.txt"; "a_notes.txt"]) as Hls.
  { vm_compute. reflexivity. }
  pose proof (X12_behavior_dir_is_bound_for_speedgoat_only (Sample.world Sample.strict)
                _ Sample.cousteau Sample.jumanji
                {[ "task" := VStr "pacman"; "task_version" := VStr "1.0" ]}
                {[ "hardware" := VStr "Cerebus" ]} Sample.raw "2021-01-01" Sample.fresh
                Hsg) as H.
  cbv zeta in H. destruct H as [H _].
  destruct (H _ _ [] Hls) as [H1 _]. exact H1.
Defined.

(** ** The raw path *)

Lemma lower_char_idemp a : lower_char (lower_char a) = lower_char a.
Proof. destruct a as [[] [] [] [] [] [] [] []]; reflexivity. Qed.

Lemma lower_idemp s : lower (lower s) = lower s.
Proof. induction s as [|a s IH]; [done|]. simpl. by rewrite lower_char_idemp, IH. Qed.

(** X13: for a monkey and a task with ASCII names, the raw path is the
    local root followed by [<rig>/<task>-task/<monkey>/raw/], with task
    and monkey in lower case and the rig as it is given, so that names
    which differ in case only share a directory. *)
Theorem X13_raw_path_layout (E : env) (monkey rig task : string) (st : state) :
  Shape.ascii_only monkey = true →
  Shape.ascii_only task = true →
  Session.getrawpath E (VStr monkey) (VStr rig) (VStr task) st
    = (Ok (local_path E +:+ rig +:+ "/" +:+ lower task +:+ "-task/"
           +:+ lower monkey +:+ "/raw/"), st)
  ∧ Session.getrawpath E (VStr (lower monkey)) (VStr rig) (VStr (lower task)) st
    = Session.getrawpath E (VStr monkey) (VStr rig) (VStr task) st.
Proof.
  intros _ _.
  assert (∀ m t, Session.getrawpath E (VStr m) (VStr rig) (VStr t) st
            = (Ok (local_path E +:+ rig +:+ "/" +:+ lower t +:+ "-task/"
                   +:+ lower m +:+ "/raw/"), st)) as Hpath.
  { intros m t. unfold Session.getrawpath. simpl. unfold mbind, M_bind, mret, M_ret.
    simpl. do 2 f_equal. rewrite !str_app_assoc. rewrite str_app_nil_r. reflexivity. }
  split.
  - apply Hpath.
  - by rewrite !Hpath, !lower_idemp.
Qed.

Lemma X13_witness :
  Session.getrawpath (Sample.world Sample.strict) (VStr "Cousteau") (VStr "Jumanji")
    (VStr "Pacman") Sample.fresh
  = (Ok "/locker/Jumanji/pacman-task/cousteau/raw/", Sample.fresh)
  ∧ Session.getrawpath (Sample.world Sample.strict) (VStr "cousteau") (VStr "Jumanji")
      (VStr "pacman") Sample.fresh
    = Session.getrawpath (Sample.world Sample.strict) (VStr "Cousteau")
        (VStr "Jumanji") (VStr "Pacman") Sample.fresh.
Proof.
  exact (X13_raw_path_layout (Sample.world Sample.strict) "Cousteau" "Jumanji"
           "Pacman" Sample.fresh eq_refl eq_refl).
Defined.

(** The capital letters beyond ASCII, here the first of [Émile], are
    lowered as well. *)
Example lower_of_a_capital_beyond_ascii :
  lower (String "201" "mile") = String "233" "mile".
Proof. reflexivity. Qed.

(** ** Notes, written and read back *)

Lemma insert_notes_run E session_path date files session_key f text st st1 :
  first_match (Re.search Re.notes_re) files = Ok f →
  read_text E (session_path +:+ f) = Some text →
  Session.insert_notes E session_path date files session_key st = (Ok (), st1) →
  session_key ##ₘ {[ "session_notes_id" := VInt 0; "session_notes" := VStr text ]}
  ∧ st1 = State (catalog st ++
                  [(TSessionNotes,
                    session_key ∪ {[ "session_notes_id" := VInt 0;
                                     "session_notes" := VStr text ]})])
                (stdout st) (handles st).
Proof.
  intros Hf Hr. unfold Session.insert_notes, try_stop, next_filter, lift. rewrite Hf.
  unfold with_open. rewrite Hr.
  unfold Session.notes_row, dict_kw, mbind, M_bind.
  case_decide as Hd; [|discriminate]. unfold mret, M_ret, insert1. cbn.
  destruct (insert_ok E _ _ _); cbn; [|discriminate].
  rewrite decide_True by done. intros [= <-]. done.
Qed.

Lemma note_is_hit (session_key : row) date text :
  session_key !! "session_date" = Some (VStr date) →
  session_key ##ₘ {[ "session_notes_id" := VInt 0; "session_notes" := VStr text ]} →
  satisfies (heading TSessionNotes)
    {[ "session_date" := VStr date; "session_notes_id" := VInt 0 ]}
    (session_key ∪ {[ "session_notes_id" := VInt 0; "session_notes" := VStr text ]}).
Proof.
  intros Hdate Hd k v Hkv _.
  apply lookup_insert_Some in Hkv as [[<- <-]|[_ Hkv]].
  - by apply lookup_union_Some_l.
  - apply lookup_singleton_Some in Hkv as [<- <-].
    apply lookup_union_Some_raw. right. split; [|done].
    eapply map_disjoint_Some_r; [exact Hd|]. done.
Qed.

(** X14: a note that [populate] stored can be read back with [printnotes]
    on the session's date exactly when no other monkey has a first note
    on that date: the text of the notes file is then printed as it was
    read, and otherwise the lookup by date and note id finds several rows
    and raises, the state being left as it was. *)
Theorem X14_printnotes_reads_back_the_stored_note (E : env)
    (session_path date : string) (files : list string) (session_key : row)
    (f text : string) (st st1 : state) :
  session_key !! "session_date" = Some (VStr date) →
  first_match (Re.search Re.notes_re) files = Ok f →
  read_text E (session_path +:+ f) = Some text →
  Session.insert_notes E session_path date files session_key st = (Ok (), st1) →
  let earlier :=
    filter (satisfies (heading TSessionNotes)
              {[ "session_date" := VStr date; "session_notes_id" := VInt 0 ]})
           (rows_of TSessionNotes (catalog st)) in
  (earlier = [] →
     Session.printnotes (VStr date) None st1
     = (Ok (), State (catalog st1) (stdout st1 ++ [text]) (handles st1)))
  ∧ (earlier ≠ [] →
     Session.printnotes (VStr date) None st1 = (Raise DataJointError, st1)).
Proof.
  intros Hdate Hf Hr Hrun earlier.
  destruct (insert_notes_run _ _ _ _ _ _ _ _ _ Hf Hr Hrun) as [Hd ->].
  pose proof (note_is_hit _ _ _ Hdate Hd) as Hhit.
  unfold Session.printnotes, get_table, fetch1_attr, fetch1, restrict, table_rel.
  unfold mbind, M_bind. cbn -[satisfies heading rows_of filter].
  rewrite rows_of_app, filter_app. fold earlier.
  replace (rows_of TSessionNotes
             [(TSessionNotes,
               session_key ∪ {[ "session_notes_id" := VInt 0;
                                "session_notes" := VStr text ]})])
    with [session_key ∪ {[ "session_notes_id" := VInt 0;
                           "session_notes" := VStr text ]}]
    by (unfold rows_of; by rewrite filter_cons_True).
  rewrite filter_cons_True by exact Hhit. rewrite filter_nil.
  split.
  - intros ->. cbn.
    assert ((session_key ∪ {[ "session_notes_id" := VInt 0;
                              "session_notes" := VStr text ]}) !! "session_notes"
            = Some (VStr text)) as ->.
    { apply lookup_union_Some_raw. right. split; [|done].
      eapply map_disjoint_Some_r; [exact Hd|]. done. }
    reflexivity.
  - intros Hne. destruct earlier as [|r1 [|r2 rest]]; done.
Qed.

Lemma X14_witness :
  Session.printnotes (VStr "2021-01-01") None
    (State (catalog Sample.fresh ++
              [(TSessionNotes,
                Sample.day1 ∪ {[ "session_notes_id" := VInt 0;
                                 "session_notes" := VStr "first" ]})]) [] [])
  = (Ok (),
     State (catalog Sample.fresh ++
              [(TSessionNotes,
                Sample.day1 ∪ {[ "session_notes_id" := VInt 0;
                                 "session_notes" := VStr "first" ]})])
           ["first"] []).
Proof.
  assert (Sample.day1 !! "session_date" = Some (VStr "2021-01-01")) as Hdate.
  { vm_compute. reflexivity. }
  assert (first_match (Re.search Re.notes_re)
            ["speedgoat"; "blackrock"; "b_notes.txt"; "a_notes.txt"]
          = Ok "b_notes.txt") as Hf.
  { vm_compute. reflexivity. }
  assert (read_text (Sample.world Sample.strict)
            ((Sample.raw +:+ "2021-01-01/") +:+ "b_notes.txt") = Some "first") as Hr.
  { vm_compute. reflexivity. }
  assert (Session.insert_notes (Sample.world Sample.strict)
            (Sample.raw +:+ "2021-01-01/") "2021-01-01"
            ["speedgoat"; "blackrock"; "b_notes.txt"; "a_notes.txt"]
            Sample.day1 Sample.fresh
          = (Ok (),
             State (catalog Sample.fresh ++
                      [(TSessionNotes,
                        Sample.day1 ∪ {[ "session_notes_id" := VInt 0;
                                         "session_notes" := VStr "first" ]})]) [] []))
    as Hrun.
  { vm_compute. reflexivity. }
  pose proof (X14_printnotes_reads_back_the_stored_note _ _ _ _ _ _ _ _ _
                Hdate Hf Hr Hrun) as H.
  cbv zeta in H. destruct H as [H _]. apply H. vm_compute. reflexivity.
Defined.

(** ** The rows of one session *)

Lemma insert_session_run E session_path date files mk rk tk nk st res st1 :
  Session.insert_session E session_path date files mk rk tk nk st = (res, st1) →
  let session_key := {[ "session_date" := VStr date ]} ∪ mk in
  let notes :=
    match first_match (Re.search Re.notes_re) files with
    | Ok f =>
        match read_text E (session_path +:+ f) with
        | Some text =>
            [(TSessionNotes,
              session_key ∪ {[ "session_notes_id" := VInt 0;
                               "session_notes" := VStr text ]})]
        | None => []
        end
    | Raise _ => []
    end in
  ∃ added,
    catalog st1 = catalog st ++ added
    ∧ added `prefix_of`
        (TSession, session_key ∪ rk ∪ tk) :: notes
          ++ [(TSessionHardware, session_key ∪ nk)]
    ∧ (res = Ok () →
       added = (TSession, session_key ∪ rk ∪ tk) :: notes
                 ++ [(TSessionHardware, session_key ∪ nk)])
    ∧ handles st1 = handles st.
Proof.
  intros Hrun. cbv zeta.
  unfold Session.insert_session, Session.insert_notes, Session.notes_row in Hrun.
  unfold dict_kw, try_stop, next_filter, with_open, lift, print, insert1 in Hrun.
  unfold mbind, M_bind, mret, M_ret, raise, lift in Hrun.
  unfold first_match, opt_result in *.
  repeat first
    [ progress cbn [catalog stdout handles fst snd remove_first] in Hrun
    | match type of Hrun with
      | context [decide (?a ##ₘ ?b)] => destruct (decide (a ##ₘ b))
      | context [insert_ok ?e ?t ?r ?c] => destruct (insert_ok e t r c)
      | context [head ?l] => destruct (head l)
      | context [read_text ?e ?p] => destruct (read_text e p)
      | context [decide (?p = ?p)] => rewrite (decide_True (P := p = p)) in Hrun by done
      end ];
  injection Hrun as <- <-; cbn [catalog stdout handles];
  first
    [ exists []; rewrite app_nil_r; repeat split;
      [apply prefix_nil | discriminate]
    | eexists; split; [rewrite <- ?app_assoc; reflexivity|];
      repeat split; try discriminate; try done;
      solve [ eexists; cbn; reflexivity | by apply prefix_cons, prefix_nil
            | cbn; apply prefix_cons; by eexists ] ].
Qed.

(** X15: the rows of a session go to the catalog in the order Session,
    Notes (of the first notes file, if there is one and it can be read),
    Hardware, each built on the session key, and outside any transaction:
    whatever the outcome, the catalog has grown by the first rows of this
    sequence, by all of them when the call returns, and the open handles
    are as before. *)
Theorem X15_session_rows_go_in_one_by_one (E : env) (session_path date : string)
    (files : list string) (mk rk tk nk : row) (st : state) :
  let out := Session.insert_session E session_path date files mk rk tk nk st in
  let session_key := {[ "session_date" := VStr date ]} ∪ mk in
  let notes :=
    match first_match (Re.search Re.notes_re) files with
    | Ok f =>
        match read_text E (session_path +:+ f) with
        | Some text =>
            [(TSessionNotes,
              session_key ∪ {[ "session_notes_id" := VInt 0;
                               "session_notes" := VStr text ]})]
        | None => []
        end
    | Raise _ => []
    end in
  ∃ added,
    catalog out.2 = catalog st ++ added
    ∧ added `prefix_of`
        (TSession, session_key ∪ rk ∪ tk) :: notes
          ++ [(TSessionHardware, session_key ∪ nk)]
    ∧ (out.1 = Ok () →
       added = (TSession, session_key ∪ rk ∪ tk) :: notes
                 ++ [(TSessionHardware, session_key ∪ nk)])
    ∧ handles out.2 = handles st.
Proof.
  intros out.
  destruct out as [res st1] eqn:Hrun. unfold out in Hrun.
  exact (insert_session_run _ _ _ _ _ _ _ _ _ _ _ Hrun).
Qed.

(** A catalog that refuses the hardware row keeps the session row. *)
Example session_row_stays_without_its_hardware :
  let refuse_hardware t (r : row) (c : list (table * row)) :=
    bool_decide (t ≠ TSessionHardware) in
  let out :=
    Session.insert_session (Sample.world refuse_hardware)
      (Sample.raw +:+ "2021-01-03/") "2021-01-03" ["speedgoat"]
      Sample.cousteau Sample.jumanji
      {[ "task" := VStr "pacman"; "task_version" := VStr "1.0" ]}
      {[ "hardware" := VStr "Cerebus" ]} Sample.fresh in
  (∃ r, out.1 = Raise (InsertError TSessionHardware r))
  ∧ length (rows_of TSession (catalog out.2)) = 1.
Proof. cbv zeta. split; [eexists|]; vm_compute; reflexivity. Qed.
(* ===================================================================== *)
(** * A whole run of the session ingestor (claims C6, C7, C9, C10)        *)
(* ===================================================================== *)

(** ** The run as a loop over the session dates *)

Lemma for_each_app {A B} (body : A → B → M B) xs ys acc st :
  for_each body (xs ++ ys) acc st = (for_each body xs acc ≫= for_each body ys) st.
Proof.
  revert acc st. induction xs as [|x xs IH]; intros acc st; simpl; [done|].
  unfold mbind, M_bind. destruct (body x acc st) as [[a|e] st1]; [|done].
  rewrite IH. reflexivity.
Qed.

Lemma bind_ret_state {A B} (m : M A) (b : B) st :
  ((m ≫= λ _, mret b) st).2 = (m st).2.
Proof. unfold mbind, M_bind. by destruct (m st) as [[a|e] st1]. Qed.

(** Once the inputs are checked and the raw directory is listed, what is
    left of [populate] is the loop over the session dates. *)
Lemma populate_run E monkey rig task dates nsp q inp listing st :
  from_option mret Session.default_nsp nsp st = (Ok q, st) →
  Session.check_inputs E monkey rig task q st = (Ok inp, st) →
  listdir E (Session.raw_path inp) = Some listing →
  Session.populate E monkey rig task dates nsp st
  = (for_each
       (Session.ingest_date E task (Session.monkey_key inp) (Session.rig_key inp)
          (Session.task_key inp) (Session.nsp_key inp) (Session.raw_path inp))
       (Session.session_dates (table_rel TSession (catalog st)) (default [] dates)
          listing)
       (Session.Locals None None) ≫= λ _, mret ()) st.
Proof.
  intros Hq Hc Hls. unfold Session.populate.
  unfold mbind at 1, M_bind at 1. rewrite Hq.
  unfold mbind at 1, M_bind at 1. rewrite Hc.
  unfold mbind at 1, M_bind at 1. rewrite (scan_eq _ _ _ _ _ Hls).
  reflexivity.
Qed.

(** The run from a date that the loop has reached. *)
Lemma populate_at E monkey rig task dates nsp q inp listing st
    pre d post lv st1 lv' st2 :
  from_option mret Session.default_nsp nsp st = (Ok q, st) →
  Session.check_inputs E monkey rig task q st = (Ok inp, st) →
  listdir E (Session.raw_path inp) = Some listing →
  Session.session_dates (table_rel TSession (catalog st)) (default [] dates) listing
    = pre ++ d :: post →
  for_each
    (Session.ingest_date E task (Session.monkey_key inp) (Session.rig_key inp)
       (Session.task_key inp) (Session.nsp_key inp) (Session.raw_path inp))
    pre (Session.Locals None None) st = (Ok lv, st1) →
  Session.ingest_date E task (Session.monkey_key inp) (Session.rig_key inp)
    (Session.task_key inp) (Session.nsp_key inp) (Session.raw_path inp) d lv st1
    = (Ok lv', st2) →
  Session.populate E monkey rig task dates nsp st
  = (for_each
       (Session.ingest_date E task (Session.monkey_key inp) (Session.rig_key inp)
          (Session.task_key inp) (Session.nsp_key inp) (Session.raw_path inp))
       post lv' ≫= λ _, mret ()) st2.
Proof.
  intros Hq Hc Hls Hds Hpre Hd.
  rewrite (populate_run _ _ _ _ _ _ _ _ _ _ Hq Hc Hls), Hds.
  unfold mbind at 1, M_bind at 1. rewrite for_each_app.
  unfold mbind at 1, M_bind at 1. rewrite Hpre. simpl.
  unfold mbind at 1, M_bind at 1. rewrite Hd. reflexivity.
Qed.

(** ** One pass for a Speedgoat task *)

Section OnePass.
Context (E : env) (task : query) (mk rk tk nk : row) (raw : string).
Hypothesis Hsg :
  rel_bool (restrict task {[ "task_controller_hardware" := VStr "Speedgoat" ]}) = true.

Local Abbreviation step := (Session.ingest_date E task mk rk tk nk raw).
Local Abbreviation dir date := ((raw +:+ date) +:+ "/").

Lemma pass_no_behavior date lv st files :
  listdir E (dir date) = Some files → "speedgoat" ∉ files →
  step date lv st
  = (Ok (Session.Locals (Some "speedgoat") (Session.ephys_dir lv)),
     State (catalog st) (stdout st ++ ["Missing behavior files for session " +:+ date])
           (handles st)).
Proof.
  intros Hls Hno. unfold Session.ingest_date, os_listdir, from_opt.
  rewrite Hls, Hsg. simpl.
  unfold mbind at 1, M_bind at 1, lift at 1. simpl.
  unfold try_stop, next_filter_eq, lift. simpl.
  rewrite first_equal_absent by done. reflexivity.
Qed.

Lemma pass_no_ephys date lv st files :
  listdir E (dir date) = Some files → nk !! "hardware" = Some (VStr "Cerebus") →
  "speedgoat" ∈ files → "blackrock" ∉ files →
  step date lv st
  = (Ok (Session.Locals (Some "speedgoat") (Some "blackrock")),
     State (catalog st) (stdout st ++ ["Missing ephys files for session " +:+ date])
           (handles st)).
Proof.
  intros Hls Hhw Hsp Hno. unfold Session.ingest_date, os_listdir, from_opt.
  rewrite Hls, Hsg. simpl.
  unfold mbind at 1, M_bind at 1, lift at 1. simpl.
  unfold try_stop at 1, next_filter_eq at 1, lift at 1. simpl.
  rewrite first_equal_present by done.
  unfold getitem, from_opt. rewrite Hhw. simpl.
  unfold mbind at 1, M_bind at 1, lift at 1. simpl.
  unfold try_stop, next_filter_eq, lift. simpl.
  rewrite first_equal_absent by done. reflexivity.
Qed.

Lemma pass_both date lv st files :
  listdir E (dir date) = Some files → nk !! "hardware" = Some (VStr "Cerebus") →
  "speedgoat" ∈ files → "blackrock" ∈ files →
  step date lv st
  = (Session.insert_session E (dir date) date files mk rk tk nk
       ≫= λ _, mret (Session.Locals (Some "speedgoat") (Some "blackrock"))) st.
Proof.
  intros Hls Hhw Hsp Hbr. unfold Session.ingest_date, os_listdir, from_opt.
  rewrite Hls, Hsg. simpl.
  unfold mbind at 1, M_bind at 1, lift at 1. simpl.
  unfold try_stop at 1, next_filter_eq at 1, lift at 1. simpl.
  rewrite first_equal_present by done.
  unfold getitem, from_opt. rewrite Hhw. simpl.
  unfold mbind at 1, M_bind at 1, lift at 1. simpl.
  unfold try_stop at 1, next_filter_eq at 1, lift at 1. simpl.
  rewrite first_equal_present by done. reflexivity.
Qed.

(** The rows of a session without notes file, and with one. *)
Lemma insert_session_without_notes date files st :
  Forall (λ x, Re.search Re.notes_re x = false) files →
  {[ "session_date" := VStr date ]} ##ₘ mk →
  {[ "session_date" := VStr date ]} ∪ mk ##ₘ rk →
  {[ "session_date" := VStr date ]} ∪ mk ∪ rk ##ₘ tk →
  {[ "session_date" := VStr date ]} ∪ mk ##ₘ nk →
  insert_ok E TSession ({[ "session_date" := VStr date ]} ∪ mk ∪ rk ∪ tk)
    (catalog st) = true →
  insert_ok E TSessionHardware ({[ "session_date" := VStr date ]} ∪ mk ∪ nk)
    (catalog st ++ [(TSession, {[ "session_date" := VStr date ]} ∪ mk ∪ rk ∪ tk)])
    = true →
  Session.insert_session E (dir date) date files mk rk tk nk st
  = (Ok (),
     State (catalog st ++
              [(TSession, {[ "session_date" := VStr date ]} ∪ mk ∪ rk ∪ tk);
               (TSessionHardware, {[ "session_date" := VStr date ]} ∪ mk ∪ nk)])
           (stdout st ++ ["Missing notes for session " +:+ date]) (handles st)).
Proof.
  intros Hnotes D1 D2 D3 D4 Hok1 Hok2.
  unfold Session.insert_session, mbind, M_bind.
  rewrite (dict_kw_disjoint _ _ _ D1). cbv beta iota.
  rewrite (dict_kw_disjoint _ _ _ D2). cbv beta iota.
  rewrite (dict_kw_disjoint _ _ _ D3). cbv beta iota.
  rewrite (insert1_accepted _ _ _ _ Hok1). cbv beta iota.
  unfold Session.insert_notes, try_stop, next_filter, lift.
  rewrite (first_match_none _ _ Hnotes). cbv beta iota.
  unfold print. cbv beta iota.
  rewrite dict_kw_disjoint by done. cbv beta iota.
  rewrite insert1_accepted by done. cbv beta iota. simpl.
  by rewrite <- app_assoc.
Qed.


End OnePass.

(** ** The rows of a run for a Speedgoat task *)

Section Rows.
Context (E : env) (task : query) (mk rk tk nk : row) (raw : string).
Hypothesis Hsg :
  rel_bool (restrict task {[ "task_controller_hardware" := VStr "Speedgoat" ]}) = true.

Local Abbreviation step := (Session.ingest_date E task mk rk tk nk raw).
Local Abbreviation dir date := ((raw +:+ date) +:+ "/").

Local Abbreviation dated := (Pass.dated E raw).

Lemma first_equal_Ok_elem name v files x :
  first_equal name (Some v) files = Ok x → v ∈ files.
Proof.
  intros H. destruct (decide (v ∈ files)) as [|Hno]; [done|].
  by rewrite (first_equal_absent _ _ _ Hno) in H.
Qed.

Lemma step_rows date lv st :
  ∃ added, catalog (step date lv st).2 = catalog st ++ added
           ∧ Forall (dated date) added.
Proof.
  assert (∀ c, c = catalog st →
            ∃ added, c = catalog st ++ added ∧ Forall (dated date) added) as Hnone.
  { intros c ->. exists []. by rewrite app_nil_r. }
  unfold Session.ingest_date, os_listdir, from_opt.
  destruct (listdir E (dir date)) as [files|] eqn:Hls; [|by apply Hnone].
  rewrite Hsg. simpl.
  unfold mbind at 1, M_bind at 1, lift at 1. simpl.
  unfold try_stop at 1, next_filter_eq at 1, lift at 1. simpl.
  destruct (first_equal "behavior_dir" (Some "speedgoat") files) as [x|e] eqn:H1.
  2:{ destruct e; by apply Hnone. }
  apply first_equal_Ok_elem in H1.
  unfold getitem, from_opt.
  destruct (nk !! "hardware") as [hw|]; simpl; [|by apply Hnone].
  unfold mbind at 1, M_bind at 1, lift at 1. simpl.
  unfold try_stop at 1, next_filter_eq at 1, lift at 1.
  match goal with |- context [first_equal "ephys_dir" ?v files] =>
    destruct (first_equal "ephys_dir" v files) as [y|e] end.
  2:{ destruct e; by apply Hnone. }
  unfold mbind, M_bind.
  destruct (Session.insert_session E (dir date) date files mk rk tk nk st)
    as [res st1] eqn:Hrun.
  destruct (insert_session_run _ _ _ _ _ _ _ _ _ _ _ Hrun)
    as (added & Hcat & [rest Hrest] & _ & _).
  exists added. split; [by destruct res|].
  assert (Forall (dated date) (added ++ rest)) as Hall;
    [|by apply Forall_app in Hall as [? _]].
  rewrite <- Hrest. constructor.
  - intros _. simpl. split; [|by exists files].
    rewrite <- !(assoc_L (∪)). apply lookup_union_Some_l, lookup_singleton_eq.
  - apply Forall_app. split; [|by repeat constructor].
    destruct (first_match _ files); [|constructor].
    destruct (read_text E _); by repeat constructor.
Qed.

Lemma loop_rows ds lv st :
  ∃ added, catalog (for_each step ds lv st).2 = catalog st ++ added
           ∧ Forall (λ p, ∃ d, d ∈ ds ∧ dated d p) added.
Proof.
  revert lv st. induction ds as [|d ds IH]; intros lv st.
  { exists []. simpl. by rewrite app_nil_r. }
  simpl. unfold mbind, M_bind.
  destruct (step_rows d lv st) as (new & Hcat & Hnew).
  assert (Forall (λ p, ∃ d0, d0 ∈ d :: ds ∧ dated d0 p) new) as Hnew'.
  { eapply Forall_impl; [exact Hnew|]. intros p Hp. exists d. split; [left|done]. }
  destruct (step d lv st) as [[lv1|e] st1]; simpl in Hcat.
  - destruct (IH lv1 st1) as (more & Hcat' & Hmore).
    exists (new ++ more). split; [by rewrite Hcat', Hcat, app_assoc|].
    apply Forall_app. split; [done|].
    eapply Forall_impl; [exact Hmore|]. intros p (d0 & Hd0 & Hp).
    exists d0. split; [by right|done].
  - by exists new.
Qed.

(** A loop over dates that all lack one of the two directories returns
    with a line printed for each date and nothing else changed. *)
Lemma loop_all_skipped ds lv st :
  nk !! "hardware" = Some (VStr "Cerebus") →
  Forall (λ d, ∃ files, listdir E (dir d) = Some files
                        ∧ ("speedgoat" ∉ files ∨ "blackrock" ∉ files)) ds →
  ∃ lv' st', for_each step ds lv st = (Ok lv', st')
             ∧ catalog st' = catalog st
             ∧ length (stdout st') = length (stdout st) + length ds
             ∧ handles st' = handles st.
Proof.
  intros Hhw Hall. revert lv st.
  induction Hall as [|d ds (files & Hls & Hcase) _ IH]; intros lv st.
  { exists lv, st. simpl. by rewrite Nat.add_0_r. }
  assert (∃ lv1 line, step d lv st
            = (Ok lv1, State (catalog st) (stdout st ++ [line]) (handles st)))
    as (lv1 & line & Hstep).
  { destruct (decide ("speedgoat" ∈ files)) as [Hin|Hno].
    - destruct Hcase as [?|Hbr]; [done|].
      eexists _, _. by apply (pass_no_ephys E task mk rk tk nk raw Hsg d lv st files).
    - eexists _, _. by apply (pass_no_behavior E task mk rk tk nk raw Hsg d lv st files). }
  destruct (IH lv1 (State (catalog st) (stdout st ++ [line]) (handles st)))
    as (lv' & st' & Hrun & Hcat & Hout & Hh).
  exists lv', st'. simpl. rewrite (bind_Ok _ _ _ _ _ Hstep).
  split; [done|]. split; [done|]. split; [|done].
  rewrite Hout. simpl. rewrite length_app. simpl. lia.
Qed.

End Rows.

Lemma notes_test_false x : ¬ contains "notes.txt" x → Re.search Re.notes_re x = false.
Proof.
  intros Hno. destruct (Re.search Re.notes_re x) eqn:H; [|done].
  destruct Hno. by apply search_literal.
Qed.


(** ** Missing artifacts (claim C6) *)

(** C6: in a run of [Session.populate] for a Speedgoat task and a Cerebus
    processor, on a raw directory with ASCII names, a session date whose
    directory has no [speedgoat] gets no Session row, whatever the
    outcome of the run; when the loop reaches such a date it prints that
    the behavior files are missing, changes nothing else, and the run is
    the loop over the dates that remain.  The same holds, with its own
    message, for a directory with [speedgoat] and without [blackrock];
    and a directory with both and without notes file gets its Session and
    Hardware rows (when the catalog takes them) and the message that the
    notes are missing, and the run goes on as well.  A run in which every
    date lacks one of the two directories returns, with one line printed
    for each date and the catalog as it was. *)
Theorem C6_missing_artifacts_do_not_abort (E : env) (monkey rig task : query)
    (dates : option (list string)) (nsp : option query) (q : query)
    (inp : Session.inputs) (listing : list string) (st : state) :
  from_option mret Session.default_nsp nsp st = (Ok q, st) →
  Session.check_inputs E monkey rig task q st = (Ok inp, st) →
  listdir E (Session.raw_path inp) = Some listing →
  Shape.ascii_only (Session.raw_path inp) = true →
  Forall (λ d, Shape.ascii_only d = true) listing →
  rel_bool (restrict task {[ "task_controller_hardware" := VStr "Speedgoat" ]}) = true →
  Session.nsp_key inp !! "hardware" = Some (VStr "Cerebus") →
  let run := Session.populate E monkey rig task dates nsp in
  let ds := Session.session_dates (table_rel TSession (catalog st))
              (default [] dates) listing in
  let step := Session.ingest_date E task (Session.monkey_key inp) (Session.rig_key inp)
                (Session.task_key inp) (Session.nsp_key inp) (Session.raw_path inp) in
  let dir d := (Session.raw_path inp +:+ d) +:+ "/" in
  let bound := Session.Locals (Some "speedgoat") (Some "blackrock") in
  (∀ d files,
     d ∈ ds → listdir E (dir d) = Some files → "speedgoat" ∉ files →
     ¬ ∃ r, (TSession, r) ∈ catalog (run st).2
            ∧ r !! "session_date" = Some (VStr d))
  ∧ (∀ pre d post lv st1 files,
       ds = pre ++ d :: post →
       for_each step pre (Session.Locals None None) st = (Ok lv, st1) →
       listdir E (dir d) = Some files →
       let said line := State (catalog st1) (stdout st1 ++ [line]) (handles st1) in
       ("speedgoat" ∉ files →
          run st
          = (for_each step post
               (Session.Locals (Some "speedgoat") (Session.ephys_dir lv))
               ≫= λ _, mret ())
              (said ("Missing behavior files for session " +:+ d)))
       ∧ ("speedgoat" ∈ files → "blackrock" ∉ files →
          run st
          = (for_each step post bound ≫= λ _, mret ())
              (said ("Missing ephys files for session " +:+ d)))
       ∧ ("speedgoat" ∈ files → "blackrock" ∈ files →
          Forall (λ x, ¬ contains "notes.txt" x) files →
          let session_key := {[ "session_date" := VStr d ]} ∪ Session.monkey_key inp in
          let r := session_key ∪ Session.rig_key inp ∪ Session.task_key inp in
          let h := session_key ∪ Session.nsp_key inp in
          {[ "session_date" := VStr d ]} ##ₘ Session.monkey_key inp →
          session_key ##ₘ Session.rig_key inp →
          session_key ∪ Session.rig_key inp ##ₘ Session.task_key inp →
          session_key ##ₘ Session.nsp_key inp →
          insert_ok E TSession r (catalog st1) = true →
          insert_ok E TSessionHardware h (catalog st1 ++ [(TSession, r)]) = true →
          run st
          = (for_each step post bound ≫= λ _, mret ())
              (State (catalog st1 ++ [(TSession, r); (TSessionHardware, h)])
                     (stdout st1 ++ ["Missing notes for session " +:+ d])
                     (handles st1))))
  ∧ (Forall (λ d, ∃ files, listdir E (dir d) = Some files
                           ∧ ("speedgoat" ∉ files ∨ "blackrock" ∉ files)) ds →
     ∃ st', run st = (Ok (), st')
            ∧ catalog st' = catalog st
            ∧ length (stdout st') = length (stdout st) + length ds
            ∧ handles st' = handles st).
Proof.
  intros Hq Hc Hls _ _ Hsg Hhw. cbv zeta.
  pose proof (populate_run _ _ _ _ dates _ _ _ _ _ Hq Hc Hls) as Hrun.
  set (ds := Session.session_dates _ _ _) in *.
  split; [|split].
  - intros d files Hd Hfiles Hno (r & Hr & Hdate).
    rewrite Hrun, bind_ret_state in Hr.
    destruct (loop_rows E task (Session.monkey_key inp) (Session.rig_key inp)
                (Session.task_key inp) (Session.nsp_key inp) (Session.raw_path inp)
                Hsg ds (Session.Locals None None) st) as (added & Hcat & Hadded).
    rewrite Hcat in Hr. apply elem_of_app in Hr as [Hr|Hr].
    + apply list_elem_of_filter in Hd as [Hnew _].
      apply in_table_false_spec in Hnew. apply Hnew.
      exists r. split; [by apply elem_of_rows_of|done].
    + rewrite Forall_forall in Hadded.
      destruct (Hadded _ Hr) as (d0 & _ & Hp).
      destruct (Hp eq_refl) as (Hdate0 & files0 & Hls0 & Hin0).
      simpl in Hdate0. rewrite Hdate in Hdate0. injection Hdate0 as <-.
      rewrite Hfiles in Hls0. injection Hls0 as <-. done.
  - intros pre d post lv st1 files Hds Hpre Hfiles. split; [|split].
    + intros Hno. apply (populate_at _ _ _ _ _ _ _ _ _ _ _ _ _ _ _ _ _ Hq Hc Hls Hds Hpre).
      by apply (pass_no_behavior _ _ _ _ _ _ _ Hsg _ _ _ files).
    + intros Hsp Hno.
      apply (populate_at _ _ _ _ _ _ _ _ _ _ _ _ _ _ _ _ _ Hq Hc Hls Hds Hpre).
      by apply (pass_no_ephys _ _ _ _ _ _ _ Hsg _ _ _ files).
    + intros Hsp Hbr Hnotes D1 D2 D3 D4 Hok1 Hok2.
      apply (populate_at _ _ _ _ _ _ _ _ _ _ _ _ _ _ _ _ _ Hq Hc Hls Hds Hpre).
      rewrite (pass_both _ _ _ _ _ _ _ Hsg _ _ _ files Hfiles Hhw Hsp Hbr).
      unfold mbind, M_bind.
      rewrite (insert_session_without_notes E _ _ _ _ _ d files st1); try done.
      eapply Forall_impl; [exact Hnotes|]. intros x. apply notes_test_false.
  - intros Hall.
    destruct (loop_all_skipped E task (Session.monkey_key inp) (Session.rig_key inp)
                (Session.task_key inp) (Session.nsp_key inp) (Session.raw_path inp)
                Hsg ds (Session.Locals None None) st Hhw Hall)
      as (lv' & st' & Hloop & Hcat & Hout & Hh).
    exists st'. rewrite Hrun. unfold mbind, M_bind. by rewrite Hloop.
Qed.

Lemma C6_witness :
  let run := Session.populate (Sample.world Sample.strict) Sample.monkey Sample.rig
               Sample.task (Some ["2021-01-02"; "2021-01-03"]) None in
  let step := Session.ingest_date (Sample.world Sample.strict) Sample.task
                (Session.monkey_key Sample.inp) (Session.rig_key Sample.inp)
                (Session.task_key Sample.inp) (Session.nsp_key Sample.inp)
                (Session.raw_path Sample.inp) in
  (¬ ∃ r, (TSession, r) ∈ catalog (run Sample.fresh).2
          ∧ r !! "session_date" = Some (VStr "2021-01-02"))
  ∧ run Sample.fresh
    = (for_each step ["2021-01-03"] (Session.Locals (Some "speedgoat") None)
         ≫= λ _, mret ())
        (State (catalog Sample.fresh)
               (stdout Sample.fresh
                  ++ ["Missing behavior files for session " +:+ "2021-01-02"])
               (handles Sample.fresh))
  ∧ ∃ st', run Sample.fresh = (Ok (), st')
           ∧ catalog st' = catalog Sample.fresh
           ∧ length (stdout st') = length (stdout Sample.fresh) + 2
           ∧ handles st' = handles Sample.fresh.
Proof.
  cbv zeta.
  assert (Session.check_inputs (Sample.world Sample.strict) Sample.monkey Sample.rig
            Sample.task
            (from_option id
               (restrict (table_rel THardware (catalog Sample.fresh))
                  {[ "hardware" := VStr "Cerebus" ]}) None) Sample.fresh
          = (Ok Sample.inp, Sample.fresh)) as Hc.
  { vm_compute. reflexivity. }
  assert (listdir (Sample.world Sample.strict) (Session.raw_path Sample.inp)
          = Some ["scratch"; "2021-01-04"; "2021-01-03"; "2021-01-02"; "2021-01-01"])
    as Hls.
  { vm_compute. reflexivity. }
  assert (Shape.ascii_only (Session.raw_path Sample.inp) = true) as Hraw.
  { vm_compute. reflexivity. }
  assert (Forall (λ d, Shape.ascii_only d = true)
            ["scratch"; "2021-01-04"; "2021-01-03"; "2021-01-02"; "2021-01-01"])
    as Hnames.
  { repeat constructor. }
  assert (rel_bool (restrict Sample.task
                      {[ "task_controller_hardware" := VStr "Speedgoat" ]}) = true)
    as Hsg.
  { vm_compute. reflexivity. }
  assert (Session.nsp_key Sample.inp !! "hardware" = Some (VStr "Cerebus")) as Hhw.
  { vm_compute. reflexivity. }
  assert (Session.session_dates (table_rel TSession (catalog Sample.fresh))
            (default [] (Some ["2021-01-02"; "2021-01-03"]))
            ["scratch"; "2021-01-04"; "2021-01-03"; "2021-01-02"; "2021-01-01"]
          = ["2021-01-02"; "2021-01-03"]) as Hds.
  { vm_compute. reflexivity. }
  assert (listdir (Sample.world Sample.strict)
            ((Session.raw_path Sample.inp +:+ "2021-01-02") +:+ "/")
          = Some ["blackrock"; "notes.txt"]) as H02.
  { vm_compute. reflexivity. }
  assert (listdir (Sample.world Sample.strict)
            ((Session.raw_path Sample.inp +:+ "2021-01-03") +:+ "/")
          = Some ["speedgoat"]) as H03.
  { vm_compute. reflexivity. }
  pose proof (C6_missing_artifacts_do_not_abort (Sample.world Sample.strict)
                Sample.monkey Sample.rig Sample.task
                (Some ["2021-01-02"; "2021-01-03"]) None _ Sample.inp _ Sample.fresh
                (default_or_given_nsp None Sample.fresh) Hc Hls Hraw Hnames Hsg Hhw)
    as H.
  cbv zeta in H. rewrite Hds in H. destruct H as (Hrow & Hpass & Hall).
  split; [|split].
  - apply (Hrow "2021-01-02" ["blackrock"; "notes.txt"]).
    + apply list_elem_of_here.
    + exact H02.
    + by apply not_elem_of_2.
  - apply (Hpass [] "2021-01-02" ["2021-01-03"] (Session.Locals None None)
             Sample.fresh ["blackrock"; "notes.txt"] eq_refl eq_refl H02).
    by apply not_elem_of_2.
  - apply Hall. constructor; [|constructor; [|constructor]].
    + exists ["blackrock"; "notes.txt"]. split; [exact H02|].
      left. by apply not_elem_of_2.
    + exists ["speedgoat"]. split; [exact H03|]. right. by apply not_elem_of_1.
Defined.

(** ** The dates of a run without date list (claims C7, C9) *)

(** C7, as the code has it: in a call of [Session.populate] without date
    list, on a raw directory with ASCII names, the scanner keeps exactly
    the entries in which the pattern YYYY-MM-DD (four digits, hyphen, two
    digits, hyphen, two digits) is found somewhere and that have no row
    yet, in lexicographic order, and the run is the loop over these; a
    directory holding 2021-01-01, 2021-01-02 and scratch, listed in
    whatever order, gives exactly 2021-01-01 then 2021-01-02 when the
    table is empty. *)
Theorem C7_scanner_keeps_dates_in_order (E : env) (monkey rig task : query)
    (nsp : option query) (q : query) (inp : Session.inputs)
    (listing : list string) (st : state) :
  from_option mret Session.default_nsp nsp st = (Ok q, st) →
  Session.check_inputs E monkey rig task q st = (Ok inp, st) →
  listdir E (Session.raw_path inp) = Some listing →
  Shape.ascii_only (Session.raw_path inp) = true →
  Forall (λ d, Shape.ascii_only d = true) listing →
  let out := Session.session_dates (table_rel TSession (catalog st)) [] listing in
  let step := Session.ingest_date E task (Session.monkey_key inp) (Session.rig_key inp)
                (Session.task_key inp) (Session.nsp_key inp) (Session.raw_path inp) in
  Session.scan E [] (Session.raw_path inp) st = (Ok out, st)
  ∧ Session.populate E monkey rig task None nsp st
    = (for_each step out (Session.Locals None None) ≫= λ _, mret ()) st
  ∧ (∀ d, d ∈ out ↔
          d ∈ listing ∧ Shape.contains_date d
          ∧ Session.in_table (table_rel TSession (catalog st)) d = false)
  ∧ StronglySorted String.le out
  ∧ (listing ≡ₚ ["2021-01-01"; "2021-01-02"; "scratch"] →
     rows_of TSession (catalog st) = [] →
     out = ["2021-01-01"; "2021-01-02"]).
Proof.
  intros Hq Hc Hls _ _. cbv zeta. split; [|split; [|split; [|split]]].
  - by apply scan_eq.
  - apply (populate_run _ _ _ _ None _ _ _ _ _ Hq Hc Hls).
  - intros d. apply elem_of_session_dates_nil.
  - apply session_dates_sorted.
  - intros Hp Hrows.
    assert (Session.sorted listing = ["2021-01-01"; "2021-01-02"; "scratch"]) as Hs.
    { apply (Sorted_unique_strong String.le).
      - intros x1 x2 _ _ H1 H2. by apply (anti_symm String.le).
      - apply StronglySorted_Sorted, sorted_StronglySorted.
      - by repeat constructor.
      - unfold Session.sorted. by rewrite merge_sort_Permutation. }
    unfold Session.session_dates, table_rel. rewrite Hs, Hrows. reflexivity.
Qed.

Lemma C7_witness :
  let step := Session.ingest_date (Sample.world Sample.strict) Sample.task
                (Session.monkey_key Sample.inp) (Session.rig_key Sample.inp)
                (Session.task_key Sample.inp) (Session.nsp_key Sample.inp)
                (Session.raw_path Sample.inp) in
  Session.scan (Sample.world Sample.strict) [] (Session.raw_path Sample.inp)
    Sample.fresh
  = (Ok ["2021-01-01"; "2021-01-02"; "2021-01-03"; "2021-01-04"], Sample.fresh)
  ∧ Session.populate (Sample.world Sample.strict) Sample.monkey Sample.rig
      Sample.task None None Sample.fresh
    = (for_each step ["2021-01-01"; "2021-01-02"; "2021-01-03"; "2021-01-04"]
         (Session.Locals None None) ≫= λ _, mret ()) Sample.fresh.
Proof.
  cbv zeta.
  assert (Session.check_inputs (Sample.world Sample.strict) Sample.monkey Sample.rig
            Sample.task
            (from_option id
               (restrict (table_rel THardware (catalog Sample.fresh))
                  {[ "hardware" := VStr "Cerebus" ]}) None) Sample.fresh
          = (Ok Sample.inp, Sample.fresh)) as Hc.
  { vm_compute. reflexivity. }
  assert (listdir (Sample.world Sample.strict) (Session.raw_path Sample.inp)
          = Some ["scratch"; "2021-01-04"; "2021-01-03"; "2021-01-02"; "2021-01-01"])
    as Hls.
  { vm_compute. reflexivity. }
  assert (Shape.ascii_only (Session.raw_path Sample.inp) = true) as Hraw.
  { vm_compute. reflexivity. }
  assert (Forall (λ d, Shape.ascii_only d = true)
            ["scratch"; "2021-01-04"; "2021-01-03"; "2021-01-02"; "2021-01-01"])
    as Hnames.
  { repeat constructor. }
  assert (Session.session_dates (table_rel TSession (catalog Sample.fresh)) []
            ["scratch"; "2021-01-04"; "2021-01-03"; "2021-01-02"; "2021-01-01"]
          = ["2021-01-01"; "2021-01-02"; "2021-01-03"; "2021-01-04"]) as Hds.
  { vm_compute. reflexivity. }
  pose proof (C7_scanner_keeps_dates_in_order (Sample.world Sample.strict)
                Sample.monkey Sample.rig Sample.task None _ Sample.inp _ Sample.fresh
                (default_or_given_nsp None Sample.fresh) Hc Hls Hraw Hnames) as H.
  cbv zeta in H. rewrite Hds in H. destruct H as (Hscan & Hrun & _).
  split; [exact Hscan|exact Hrun].
Defined.

(** C7 as the claim has it fails on a raw directory with a backup copy of
    a session: the scanner keeps entries that are not of the form
    YYYY-MM-DD. *)
Lemma C7_counterexample :
  ¬ (∀ out st',
       Session.scan (Sample.archive Sample.strict) [] Sample.raw Sample.fresh
         = (Ok out, st') →
       Forall (λ d, Shape.date_shape d = true) out).
Proof.
  intros H.
  assert (Session.scan (Sample.archive Sample.strict) [] Sample.raw Sample.fresh
          = (Ok ["2021-01-015"; "backup-2021-01-01"], Sample.fresh)) as Hscan.
  { vm_compute. reflexivity. }
  apply H in Hscan. apply Forall_cons in Hscan as [Hd _]. discriminate Hd.
Qed.

(** C9: a call of [Session.populate] with the empty date list is the call
    without date list: on a raw directory with ASCII names the scanner
    filters the whole listing by the date pattern, the run is the loop
    over the entries so found that have no row yet, and every entry of
    the listing with a date in its name and without row is among them. *)
Theorem C9_empty_date_list_is_no_date_list (E : env) (monkey rig task : query)
    (nsp : option query) (q : query) (inp : Session.inputs)
    (listing : list string) (st : state) :
  from_option mret Session.default_nsp nsp st = (Ok q, st) →
  Session.check_inputs E monkey rig task q st = (Ok inp, st) →
  listdir E (Session.raw_path inp) = Some listing →
  Shape.ascii_only (Session.raw_path inp) = true →
  Forall (λ d, Shape.ascii_only d = true) listing →
  let candidates :=
    Session.not_in_table (table_rel TSession (catalog st))
      (filter (λ d, Re.search Re.date_re d = true) (Session.sorted listing)) in
  let step := Session.ingest_date E task (Session.monkey_key inp) (Session.rig_key inp)
                (Session.task_key inp) (Session.nsp_key inp) (Session.raw_path inp) in
  Session.populate E monkey rig task (Some []) nsp st
    = Session.populate E monkey rig task None nsp st
  ∧ Session.scan E [] (Session.raw_path inp) st = (Ok candidates, st)
  ∧ Session.populate E monkey rig task (Some []) nsp st
    = (for_each step candidates (Session.Locals None None) ≫= λ _, mret ()) st
  ∧ (∀ d, d ∈ listing → Shape.contains_date d →
          Session.in_table (table_rel TSession (catalog st)) d = false →
          d ∈ candidates).
Proof.
  intros Hq Hc Hls _ _. cbv zeta. split; [|split; [|split]].
  - reflexivity.
  - exact (scan_eq E [] _ _ st Hls).
  - exact (populate_run _ _ _ _ (Some []) _ _ _ _ _ Hq Hc Hls).
  - intros d Hin Hdate Hnew.
    apply (elem_of_session_dates_nil (table_rel TSession (catalog st)) listing d).
    done.
Qed.

Lemma C9_witness :
  let step := Session.ingest_date (Sample.world Sample.strict) Sample.task
                (Session.monkey_key Sample.inp) (Session.rig_key Sample.inp)
                (Session.task_key Sample.inp) (Session.nsp_key Sample.inp)
                (Session.raw_path Sample.inp) in
  Session.populate (Sample.world Sample.strict) Sample.monkey Sample.rig
    Sample.task (Some []) None Sample.fresh
  = (for_each step ["2021-01-01"; "2021-01-02"; "2021-01-03"; "2021-01-04"]
       (Session.Locals None None) ≫= λ _, mret ()) Sample.fresh.
Proof.
  cbv zeta.
  assert (Session.check_inputs (Sample.world Sample.strict) Sample.monkey Sample.rig
            Sample.task
            (from_option id
               (restrict (table_rel THardware (catalog Sample.fresh))
                  {[ "hardware" := VStr "Cerebus" ]}) None) Sample.fresh
          = (Ok Sample.inp, Sample.fresh)) as Hc.
  { vm_compute. reflexivity. }
  assert (listdir (Sample.world Sample.strict) (Session.raw_path Sample.inp)
          = Some ["scratch"; "2021-01-04"; "2021-01-03"; "2021-01-02"; "2021-01-01"])
    as Hls.
  { vm_compute. reflexivity. }
  assert (Shape.ascii_only (Session.raw_path Sample.inp) = true) as Hraw.
  { vm_compute. reflexivity. }
  assert (Forall (λ d, Shape.ascii_only d = true)
            ["scratch"; "2021-01-04"; "2021-01-03"; "2021-01-02"; "2021-01-01"])
    as Hnames.
  { repeat constructor. }
  assert (Session.not_in_table (table_rel TSession (catalog Sample.fresh))
            (filter (λ d, Re.search Re.date_re d = true)
               (Session.sorted
                  ["scratch"; "2021-01-04"; "2021-01-03"; "2021-01-02"; "2021-01-01"]))
          = ["2021-01-01"; "2021-01-02"; "2021-01-03"; "2021-01-04"]) as Hds.
  { vm_compute. reflexivity. }
  pose proof (C9_empty_date_list_is_no_date_list (Sample.world Sample.strict)
                Sample.monkey Sample.rig Sample.task None _ Sample.inp _ Sample.fresh
                (default_or_given_nsp None Sample.fresh) Hc Hls Hraw Hnames) as H.
  cbv zeta in H. rewrite Hds in H. destruct H as (_ & _ & Hrun & _).
  exact Hrun.
Defined.

(** ** The notes of a session (claim C10) *)




